(** * filter_short_reads.py: a shallow embedding and its properties

    The script filters short reads out of FASTQ files in two passes:
    [get_skip_ids] collects the identifiers of the reads to drop,
    [merge_skip_ids] joins the collections of the two mate files, and
    [write_filtered_output] streams a file again and writes the records whose
    identifier was not collected.

    Conventions of the embedding
    - a Python [str] is a [string]; a character is a code point below 256;
    - a file is held as its decoded text: the I/O layer (plain or gzip, text
      mode with universal newlines) has already turned every line ending into
      a line feed;
    - a [dict] is an association list in insertion order with distinct keys;
    - the file system, standard output, [sys.exit] and uncaught exceptions are
      threaded through a small state and error monad;
    - a file is opened for reading if and only if it exists, and holds text
      that decodes; a file can always be opened for writing (its directory
      exists and may be written to).  What [open] raises otherwise is not
      part of the embedding. *)

From Stdlib Require Import Bool Arith NArith ZArith Lia List Ascii String.
Import ListNotations.

Local Open Scope string_scope.
Local Open Scope list_scope.

Infix "+++" := String.append (at level 60, right associativity).

(** ** Characters and strings, as Python's [str] methods see them *)

Module Str.

Definition LF : ascii := "010"%char.
Definition TAB : ascii := "009"%char.
Definition SPACE : ascii := " "%char.

(** [str.isspace] on one character: the white space of Unicode that lies
    below code point 256. *)
Definition isspace (c : ascii) : bool :=
  let n := N_of_ascii c in
  ((9 <=? n) && (n <=? 13) || (28 <=? n) && (n <=? 32)
   || (n =? 133) || (n =? 160))%N.

(** [s.rstrip()] with no argument. *)
Fixpoint rstrip (s : string) : string :=
  match s with
  | EmptyString => EmptyString
  | String c s' =>
      match rstrip s' with
      | EmptyString => if isspace c then EmptyString else String c EmptyString
      | t => String c t
      end
  end.

(** [s.startswith(p)]. *)
Definition startswith (s p : string) : bool := String.prefix p s.

(** [s.endswith(suf)]: some tail of [s] is [suf]. *)
Fixpoint endswith (s suf : string) : bool :=
  String.eqb s suf
  || match s with
     | EmptyString => false
     | String _ s' => endswith s' suf
     end.

(** [str.lower] on one character (ASCII and Latin-1 capitals). *)
Definition lower_char (c : ascii) : ascii :=
  let n := N_of_ascii c in
  if ((65 <=? n) && (n <=? 90)
      || (192 <=? n) && (n <=? 222) && negb (n =? 215))%N
  then ascii_of_N (n + 32) else c.

Fixpoint lower (s : string) : string :=
  match s with
  | EmptyString => EmptyString
  | String c s' => String (lower_char c) (lower s')
  end.

(** ["sep".join(parts)]. *)
Definition join (sep : string) (parts : list string) : string :=
  String.concat sep parts.

(** [c in s]. *)
Fixpoint contains (c : ascii) (s : string) : bool :=
  match s with
  | EmptyString => false
  | String d s' => Ascii.eqb c d || contains c s'
  end.

(** [''.join(s.rsplit('.', 1))]: [s] without its last full stop. *)
Fixpoint remove_last_dot (s : string) : string :=
  match s with
  | EmptyString => EmptyString
  | String c s' =>
      if Ascii.eqb c "."%char && negb (contains "."%char s') then s'
      else String c (remove_last_dot s')
  end.

(** The text a file object yields line by line ([for line in f]): every
    line keeps its line feed, the last one may lack it. *)
Fixpoint readlines (s : string) : list string :=
  match s with
  | EmptyString => []
  | String c s' =>
      if Ascii.eqb c LF then String c EmptyString :: readlines s'
      else match readlines s' with
           | [] => [String c EmptyString]
           | l :: ls => String c l :: ls
           end
  end.

End Str.

(** ** The three regular-expression substitutions of the script

    Each [re.sub] of the source is written out as the left-to-right scan
    that Python's engine performs for that pattern: at every position the
    pattern is tried; where it matches the match is dropped and the scan
    resumes behind it, elsewhere the character is copied. *)

Module Re.

Import Str.

(** Where [$] holds: at the end, or before a line feed that ends the
    string. *)
Definition at_dollar (s : string) : bool :=
  match s with
  | EmptyString => true
  | String c EmptyString => Ascii.eqb c LF
  | _ => false
  end.

(** [.*$] can be matched from the head of [s]: the greedy [.*] runs up to
    the first line feed, which must be the one [$] tolerates. *)
Fixpoint dots_dollar (s : string) : bool :=
  match s with
  | EmptyString => true
  | String c s' => if Ascii.eqb c LF then at_dollar s else dots_dollar s'
  end.

(** What is left of the string behind a match that ends at [$]. *)
Fixpoint after_dollar (s : string) : string :=
  match s with
  | EmptyString => EmptyString
  | String c s' => if Ascii.eqb c LF then s else after_dollar s'
  end.

Definition is_blank (c : ascii) : bool :=
  Ascii.eqb c SPACE || Ascii.eqb c TAB.

(** [re.sub("[ \t]+.*$", "", s)]. *)
Fixpoint sub_annotation (s : string) : string :=
  match s with
  | EmptyString => EmptyString
  | String c s' =>
      if is_blank c && dots_dollar s' then after_dollar s'
      else String c (sub_annotation s')
  end.

(** The class [[\/\.\_\-\:\;]]. *)
Definition is_separator (c : ascii) : bool :=
  contains c "/._-:;".

(** The class [[012lrLRfrFR53]]. *)
Definition is_mate_marker (c : ascii) : bool :=
  contains c "012lrLRfrFR53".

(** ['*$] can be matched from the head of [s]. *)
Fixpoint quotes_dollar (s : string) : bool :=
  match s with
  | String c s' =>
      if Ascii.eqb c "'"%char then quotes_dollar s' else at_dollar s
  | EmptyString => true
  end.

Definition mate_suffix_here (s : string) : bool :=
  match s with
  | String c (String m s') =>
      is_separator c && is_mate_marker m && quotes_dollar s'
  | _ => false
  end.

(** [re.sub("[\/\.\_\-\:\;][012lrLRfrFR53]\'*$", "", s)]. *)
Fixpoint sub_mate_suffix (s : string) : string :=
  match s with
  | EmptyString => EmptyString
  | String c s' =>
      if mate_suffix_here s then after_dollar s'
      else String c (sub_mate_suffix s')
  end.

(** [lit] matches at the head of [s], ignoring case; [lit] is in lower
    case. *)
Fixpoint literal_here (lit s : string) : bool :=
  match lit, s with
  | EmptyString, _ => true
  | String p lit', String c s' =>
      Ascii.eqb (lower_char c) p && literal_here lit' s'
  | String _ _, EmptyString => false
  end.

(** The scan of [re.sub('.' + lit, '', s, flags=re.IGNORECASE)]: [skip]
    counts the characters of a match still to be dropped. *)
Fixpoint sub_dot_literal_from (skip : nat) (lit s : string) : string :=
  match s with
  | EmptyString => EmptyString
  | String c s' =>
      match skip with
      | S k => sub_dot_literal_from k lit s'
      | O =>
          if negb (Ascii.eqb c LF) && literal_here lit s'
          then sub_dot_literal_from (String.length lit) lit s'
          else String c (sub_dot_literal_from 0 lit s')
      end
  end.

(** [re.sub(ext, '', s, flags=re.IGNORECASE)] for [ext] one of [".gz"],
    [".fq"], [".fastq"]: the leading full stop of the pattern is the
    wildcard, the rest [lit] is literal. *)
Definition sub_dot_literal (lit s : string) : string :=
  sub_dot_literal_from 0 lit s.

End Re.

(** ** parse_read_id *)

Definition parse_read_id (header_line : string) (paired_end_flag : bool)
  : string :=
  let read_id := Re.sub_annotation header_line in
  if paired_end_flag then
    let read_id := Str.remove_last_dot read_id in
    Re.sub_mate_suffix read_id
  else read_id.

(** ** Python's [dict], keyed by strings

    Insertion order is kept, as Python does: a new key goes to the end, an
    old key keeps its place. *)

Module Dict.

Definition dict : Type := list (string * bool).

Definition empty : dict := [].

(** [d[k]], [None] standing for [KeyError]. *)
Fixpoint get (k : string) (d : dict) : option bool :=
  match d with
  | [] => None
  | (k', v) :: d' => if String.eqb k k' then Some v else get k d'
  end.

(** [k in d]. *)
Definition contains (k : string) (d : dict) : bool :=
  match get k d with Some _ => true | None => false end.

(** [d[k] = v]. *)
Fixpoint set (k : string) (v : bool) (d : dict) : dict :=
  match d with
  | [] => [(k, v)]
  | (k', v') :: d' =>
      if String.eqb k k' then (k', v) :: d' else (k', v') :: set k v d'
  end.

(** [d.keys()]. *)
Definition keys (d : dict) : list string := map fst d.

(** [len(d)]. *)
Definition len (d : dict) : nat := List.length d.

(** [not d]. *)
Definition is_empty (d : dict) : bool :=
  match d with [] => true | _ :: _ => false end.

End Dict.

(** ** Files, standard output and abrupt termination *)

Inductive message : Type :=
| ReadingInputFile (readsfile : option string)
| ReadsEvaluated (read_cnt : N)
| WritingOutputFile (this_outputfile : string)
| ReadsProcessed (read_cnt : N)
| MismatchInSkipIds (k : string)
| NoReadsFound (length : Z)
| SkippingReads (count : nat)
| Done
| Complaint (text : string)
| Help.

Inductive exn : Type :=
| AttributeError
| FileNotFoundError (path : string).

Inductive outcome (A : Type) : Type :=
| Returned (a : A)
| SysExit (code : Z)
| Raised (e : exn).

Arguments Returned {A} a.
Arguments SysExit {A} code.
Arguments Raised {A} e.

(** The decoded text of every file that exists, and what was printed. *)
Record world : Type := World {
  files : string -> option string;
  stdout : list message
}.

Definition M (A : Type) : Type := world -> outcome A * world.

Definition ret {A : Type} (a : A) : M A := fun w => (Returned a, w).

Definition bind {A B : Type} (m : M A) (k : A -> M B) : M B :=
  fun w =>
    match m w with
    | (Returned a, w') => k a w'
    | (SysExit code, w') => (SysExit code, w')
    | (Raised e, w') => (Raised e, w')
    end.

Notation "x <- m ;; k" := (bind m (fun x => k))
  (at level 61, m at next level, right associativity).
Notation "m ;;; k" := (bind m (fun _ => k))
  (at level 61, right associativity).

Definition print (m : message) : M unit :=
  fun w => (Returned tt, World (files w) (stdout w ++ [m])).

Definition print_all (ms : list message) : M unit :=
  fun w => (Returned tt, World (files w) (stdout w ++ ms)).

Definition sys_exit {A : Type} (code : Z) : M A := fun w => (SysExit code, w).

Definition raise {A : Type} (e : exn) : M A := fun w => (Raised e, w).

(** [open(path, 'r')] or [gzip.open(path, 'rt')], then iteration: the lines
    of the decoded text. *)
Definition open_read (path : string) : M (list string) :=
  fun w =>
    match files w path with
    | Some text => (Returned (Str.readlines text), w)
    | None => (Raised (FileNotFoundError path), w)
    end.

(** What a file holds once it has been opened for writing, [chunks] have
    been written and it has been closed; with no chunk, what opening it for
    writing leaves. *)
Definition store (path : string) (chunks : list string) : M unit :=
  fun w =>
    (Returned tt,
     World (fun p => if String.eqb p path
                     then Some (String.concat "" chunks) else files w p)
           (stdout w)).

(** [readsfile.lower().endswith('.gz')] on an argument that may be [None]. *)
Definition require_path (readsfile : option string) : M string :=
  match readsfile with
  | Some path => ret path
  | None => raise AttributeError
  end.

(** ** get_skip_ids *)

Record scan_state : Type := ScanState {
  scan_this_id : option string;
  scan_counter : nat;
  scan_read_cnt : N;
  these_skip_ids : Dict.dict;
  scan_printed : list message
}.

Definition scan_init : scan_state := ScanState None 0 0 Dict.empty [].

(** One turn of the [for line in f] loop of [get_skip_ids]. *)
Definition scan_line (skip_len : Z) (paired_end_flag : bool)
    (st : scan_state) (raw : string) : scan_state :=
  let line := Str.rstrip raw in
  let counter := if Nat.eqb (scan_counter st) 4 then 0 else scan_counter st in
  if Str.startswith line "@" && Nat.eqb counter 0 then
    let read_cnt := (scan_read_cnt st + 1)%N in
    ScanState (Some (parse_read_id line paired_end_flag)) (counter + 1)
      read_cnt (these_skip_ids st)
      (if (read_cnt mod 1000000 =? 0)%N
       then scan_printed st ++ [ReadsEvaluated read_cnt]
       else scan_printed st)
  else
    match scan_this_id st with
    | Some this_id =>
        ScanState None (counter + 1) (scan_read_cnt st)
          (if (Z.of_nat (String.length line) <=? skip_len)%Z
           then Dict.set this_id true (these_skip_ids st)
           else these_skip_ids st)
          (scan_printed st)
    | None =>
        ScanState None (counter + 1) (scan_read_cnt st) (these_skip_ids st)
          (scan_printed st)
    end.

Definition scan_lines (skip_len : Z) (paired_end_flag : bool)
    (lines : list string) : scan_state :=
  fold_left (scan_line skip_len paired_end_flag) lines scan_init.

Definition get_skip_ids (readsfile : option string) (skip_len : Z)
    (paired_end_flag : bool) : M Dict.dict :=
  print (ReadingInputFile readsfile) ;;;
  path <- require_path readsfile ;;
  lines <- open_read path ;;
  let st := scan_lines skip_len paired_end_flag lines in
  print_all (scan_printed st) ;;;
  print (ReadsEvaluated (scan_read_cnt st)) ;;;
  ret (these_skip_ids st).

(** ** write_filtered_output *)

(** The name of the file to write, and whether it is compressed. *)
Definition output_name (outputfile : string) (read_direction : option string)
  : string :=
  let gzip_output := Str.endswith (Str.lower outputfile) ".gz" in
  match read_direction with
  | None => outputfile
  | Some direction =>
      let this_outputfile :=
        if gzip_output then Re.sub_dot_literal "gz" outputfile
        else outputfile in
      let extension :=
        if Str.endswith (Str.lower this_outputfile) ".fq" then "fq"
        else "fastq" in
      let this_outputfile := Re.sub_dot_literal extension this_outputfile in
      let this_outputfile :=
        this_outputfile +++ "." +++ direction +++ "." +++ extension in
      if gzip_output then this_outputfile +++ ".gz" else this_outputfile
  end.

Record write_state : Type := WriteState {
  write_this_id : option string;
  write_counter : nat;
  read_buf : list string;
  skip_read : bool;
  write_read_cnt : N;
  out : list string;
  write_printed : list message
}.

Definition write_init : write_state := WriteState None 0 [] false 0 [] [].

(** [out.write("\n".join(read_buf)+"\n")]. *)
Definition flush (buf : list string) : string :=
  Str.join (String Str.LF "") buf +++ String Str.LF "".

(** One turn of the [for line in f] loop of [write_filtered_output]. *)
Definition write_line (skip_ids : Dict.dict) (paired_end_flag : bool)
    (st : write_state) (raw : string) : write_state :=
  let line := Str.rstrip raw in
  let st :=
    if Nat.eqb (write_counter st) 4 then
      WriteState (write_this_id st) 0 [] false (write_read_cnt st)
        (if skip_read st then out st else out st ++ [flush (read_buf st)])
        (write_printed st)
    else st in
  let st :=
    if Str.startswith line "@" && Nat.eqb (write_counter st) 0 then
      let this_id := parse_read_id line paired_end_flag in
      let read_cnt := (write_read_cnt st + 1)%N in
      WriteState (Some this_id) (write_counter st) (read_buf st)
        (if Dict.contains this_id skip_ids then true else skip_read st)
        read_cnt (out st)
        (if (read_cnt mod 1000000 =? 0)%N
         then write_printed st ++ [ReadsProcessed read_cnt]
         else write_printed st)
    else st in
  WriteState (write_this_id st) (write_counter st + 1) (read_buf st ++ [line])
    (skip_read st) (write_read_cnt st) (out st) (write_printed st).

(** The loop and the flush that follows it. *)
Definition write_lines (skip_ids : Dict.dict) (paired_end_flag : bool)
    (lines : list string) : write_state :=
  let st := fold_left (write_line skip_ids paired_end_flag) lines write_init in
  WriteState (write_this_id st) (write_counter st) (read_buf st) (skip_read st)
    (write_read_cnt st)
    (if skip_read st then out st else out st ++ [flush (read_buf st)])
    (write_printed st).

Definition write_filtered_output (skip_ids : Dict.dict) (outputfile : string)
    (readsfile : option string) (paired_end_flag : bool)
    (read_direction : option string) : M string :=
  let this_outputfile := output_name outputfile read_direction in
  print (WritingOutputFile this_outputfile) ;;;
  store this_outputfile [] ;;;
  path <- require_path readsfile ;;
  lines <- open_read path ;;
  let st := write_lines skip_ids paired_end_flag lines in
  print_all (write_printed st) ;;;
  print (ReadsProcessed (write_read_cnt st)) ;;;
  store this_outputfile (out st) ;;;
  ret this_outputfile.

(** ** merge_skip_ids *)

(** The second loop of [merge_skip_ids], over the items of [new_skip_ids]
    that are still to come. *)
Fixpoint merge_new (base_skip_ids : Dict.dict)
    (items : list (string * bool)) (merged_skip_ids : Dict.dict)
  : M Dict.dict :=
  match items with
  | [] => ret merged_skip_ids
  | (k, v) :: items' =>
      match Dict.get k base_skip_ids with
      | Some b =>
          if negb (Bool.eqb b v) then
            print (MismatchInSkipIds k) ;;; sys_exit (-2)%Z
          else merge_new base_skip_ids items' (Dict.set k v merged_skip_ids)
      | None => merge_new base_skip_ids items' (Dict.set k v merged_skip_ids)
      end
  end.

Definition merge_skip_ids (base_skip_ids new_skip_ids : Dict.dict)
  : M Dict.dict :=
  let merged_skip_ids :=
    fold_left (fun m kv => Dict.set (fst kv) (snd kv) m)
      base_skip_ids Dict.empty in
  merge_new base_skip_ids new_skip_ids merged_skip_ids.

(** ** main *)

(** The namespace [getargs] returns.  [getargs] itself has checked that an
    output name is given, that exactly one of [singleend] and [pairedend] is
    set, and that a paired-end library comes with exactly one of
    [interleaved] and a reverse file. *)
Module Args.

Record t : Type := Make {
  singleend : bool;
  pairedend : bool;
  interleaved : bool;
  forwardreads : option string;
  reversereads : option string;
  outputfile : string;
  length : Z
}.

Definition default_len : Z := 25.

(** The [length] the parser hands over: the integer given with [-l], or
    [default_len] where the option is absent ([default=default_len]). *)
Definition parsed_length (given : option Z) : Z :=
  match given with
  | Some l => l
  | None => default_len
  end.

(** The truth value of an optional string. *)
Definition truthy (s : option string) : bool :=
  match s with
  | Some (String _ _) => true
  | _ => false
  end.

(** The checks of [getargs] on the modes and the files. *)
Definition accepted (a : t) : bool :=
  negb (String.eqb (outputfile a) "")
  && (singleend a || pairedend a)
  && negb (singleend a && pairedend a)
  && negb (singleend a && truthy (reversereads a))
  && negb (pairedend a && negb (interleaved a)
           && negb (truthy (reversereads a)))
  && negb (interleaved a && truthy (reversereads a)).

End Args.

Definition main (a : Args.t) : M Z :=
  skip_ids <- get_skip_ids (Args.forwardreads a) (Args.length a)
                (Args.pairedend a) ;;
  skip_ids <-
    (if Args.pairedend a && negb (Args.interleaved a) then
       new_skip_ids <- get_skip_ids (Args.reversereads a) (Args.length a)
                         (Args.pairedend a) ;;
       merge_skip_ids skip_ids new_skip_ids
     else ret skip_ids) ;;
  (if Dict.is_empty skip_ids then print (NoReadsFound (Args.length a))
   else
     print (SkippingReads (Dict.len skip_ids)) ;;;
     let read_direction :=
       if Args.pairedend a && negb (Args.interleaved a) then Some "R1"
       else None in
     write_filtered_output skip_ids (Args.outputfile a) (Args.forwardreads a)
       (Args.pairedend a) read_direction ;;;
     if Args.pairedend a && Args.truthy (Args.reversereads a) then
       write_filtered_output skip_ids (Args.outputfile a)
         (Args.reversereads a) (Args.pairedend a) (Some "R2") ;;;
       ret tt
     else ret tt) ;;;
  print Done ;;;
  ret 0%Z.

(** A world with the given files and nothing printed yet. *)
Fixpoint disk (fs : list (string * string)) : string -> option string :=
  fun p =>
    match fs with
    | [] => None
    | (q, text) :: fs' => if String.eqb p q then Some text else disk fs' p
    end.

(** ** FASTQ records, as the format defines them *)

Record fastq_record : Type := FastqRecord {
  header : string;
  sequence : string;
  separator : string;
  quality : string
}.

Definition record_lines (r : fastq_record) : list string :=
  [header r; sequence r; separator r; quality r].

Definition NL : string := String Str.LF "".

(** The four lines of a record, each ended by a line feed. *)
Definition record_text (r : fastq_record) : string :=
  header r +++ NL +++ sequence r +++ NL +++ separator r +++ NL
  +++ quality r +++ NL.

(** The text of a file that holds the records [rs]. *)
Fixpoint fastq_text (rs : list fastq_record) : string :=
  match rs with
  | [] => ""
  | r :: rs' => record_text r +++ fastq_text rs'
  end.

(** A line of text proper: no line feed inside, no white space at its
    end. *)
Definition is_line (l : string) : bool :=
  String.eqb (Str.rstrip l) l && negb (Str.contains Str.LF l).

(** A record whose header starts with the [@] sign and whose four fields
    are lines. *)
Definition well_formed (r : fastq_record) : bool :=
  Str.startswith (header r) "@" && forallb is_line (record_lines r).

Definition read_id (paired_end_flag : bool) (r : fastq_record) : string :=
  parse_read_id (header r) paired_end_flag.

Definition sequence_length (r : fastq_record) : Z :=
  Z.of_nat (String.length (sequence r)).

(** ** Two headers of one fragment

    The forward and the reverse header of a fragment: the same stem, a
    separator, one mate marker each, the same run of apostrophes, and the
    same annotation behind white space, if any. *)

Fixpoint all_quotes (s : string) : bool :=
  match s with
  | EmptyString => true
  | String c s' => Ascii.eqb c "'"%char && all_quotes s'
  end.

Definition is_annotation (s : string) : bool :=
  match s with
  | EmptyString => true
  | String c _ => Re.is_blank c
  end.

Definition mate_headers (h1 h2 : string) : Prop :=
  exists (stem quotes annotation : string) (sep m1 m2 : ascii),
    h1 = stem +++ String sep (String m1 (quotes +++ annotation))
    /\ h2 = stem +++ String sep (String m2 (quotes +++ annotation))
    /\ Re.is_separator sep = true
    /\ Re.is_mate_marker m1 = true
    /\ Re.is_mate_marker m2 = true
    /\ all_quotes quotes = true
    /\ is_annotation annotation = true.

(** ** The output name, as section 6 of the specification words it

    Used only to compare [output_name] with. *)

(** [s] cut before a tail that is [suf] up to case: the part before and the
    tail as written. *)
Fixpoint split_suffix_ci (s suf : string) : option (string * string) :=
  if String.eqb (Str.lower s) suf then Some ("", s)
  else
    match s with
    | EmptyString => None
    | String c s' =>
        match split_suffix_ci s' suf with
        | Some (before, tail) => Some (String c before, tail)
        | None => None
        end
    end.

Definition spec_output_name (O : string) (tag : string) : string :=
  let (O1, gz) :=
    match split_suffix_ci O ".gz" with
    | Some (before, tail) => (before, tail)
    | None => (O, "")
    end in
  let (O2, extension) :=
    match split_suffix_ci O1 ".fastq" with
    | Some (before, tail) => (before, tail)
    | None =>
        match split_suffix_ci O1 ".fq" with
        | Some (before, tail) => (before, tail)
        | None => (O1, ".fastq")
        end
    end in
  O2 +++ "." +++ tag +++ extension +++ gz.

(** ** The loops, read record by record

    Both loops count lines in fours.  [groups4] cuts a list of lines the same
    way; the functions below say what each loop does with one group. *)

Fixpoint groups4 (ls : list string) : list (list string) :=
  match ls with
  | [] => []
  | a :: b :: c :: d :: rest => [a; b; c; d] :: groups4 rest
  | _ => [ls]
  end.

(** What [get_skip_ids] does with one group: a group headed by [@] whose
    second line is short puts its identifier in the dictionary. *)
Definition scan_group (skip_len : Z) (paired_end_flag : bool)
    (d : Dict.dict) (g : list string) : Dict.dict :=
  match g with
  | h :: s :: _ =>
      if Str.startswith h "@"
         && (Z.of_nat (String.length s) <=? skip_len)%Z
      then Dict.set (parse_read_id h paired_end_flag) true d
      else d
  | _ => d
  end.

(** The groups [write_filtered_output] leaves out: those headed by [@] whose
    identifier is in the dictionary. *)
Definition group_skipped (skip_ids : Dict.dict) (paired_end_flag : bool)
    (g : list string) : bool :=
  match g with
  | h :: _ =>
      Str.startswith h "@"
      && Dict.contains (parse_read_id h paired_end_flag) skip_ids
  | [] => false
  end.

(** The groups the writer sees: a file with no line still makes it flush
    one empty buffer. *)
Definition groups_seen (ls : list string) : list (list string) :=
  match ls with
  | [] => [[]]
  | _ => groups4 ls
  end.

(** ** What the properties are stated with *)

Definition scan_boundary (st : scan_state) : Prop :=
  scan_this_id st = None /\ (scan_counter st = 0 \/ scan_counter st = 4).

(** What the flush behind the loop leaves in the file. *)
Definition final_out (st : write_state) : list string :=
  if skip_read st then out st else out st ++ [flush (read_buf st)].

Definition written_groups (skip_ids : Dict.dict) (paired : bool)
    (gs : list (list string)) : list string :=
  map flush (filter (fun g => negb (group_skipped skip_ids paired g)) gs).

(** A state between two groups: before the first line of the file, or with
    a full group in the buffer. *)
Definition write_boundary (st : write_state) : Prop :=
  write_counter st = 4
  \/ (write_counter st = 0 /\ read_buf st = [] /\ skip_read st = false).

(** What is in the file once the group in the buffer, if any, is flushed. *)
Definition carried_out (st : write_state) : list string :=
  if Nat.eqb (write_counter st) 4 then final_out st else out st.

(** [new_skip_ids] poured into [base]: what the loops of [merge_skip_ids]
    build when they run to their end. *)
Definition dict_update (base items : Dict.dict) : Dict.dict :=
  fold_left (fun m kv => Dict.set (fst kv) (snd kv) m) items base.

(** Every value of the dictionary is [True]. *)
Definition all_true (d : Dict.dict) : Prop :=
  forall k v, Dict.get k d = Some v -> v = true.

(** The dictionary [get_skip_ids] returns for a file that holds [text]. *)
Definition skip_of (skip_len : Z) (paired : bool) (text : string) : Dict.dict :=
  these_skip_ids (scan_lines skip_len paired (Str.readlines text)).

(** The text [write_filtered_output] leaves in its output file when the
    file it reads holds [text]. *)
Definition written (skip_ids : Dict.dict) (paired : bool) (text : string)
  : string :=
  String.concat "" (out (write_lines skip_ids paired (Str.readlines text))).

Definition is_short (skip_len : Z) (r : fastq_record) : bool :=
  (sequence_length r <=? skip_len)%Z.

(** The identifiers of the short records of [rs], added to [d] in the order
    of the file. *)
Definition skip_records (skip_len : Z) (paired : bool)
    (rs : list fastq_record) (d : Dict.dict) : Dict.dict :=
  fold_left
    (fun d r =>
       if is_short skip_len r then Dict.set (read_id paired r) true d else d)
    rs d.

(** The records whose identifier is not in [skip_ids], in the order of the
    file. *)
Definition kept (skip_ids : Dict.dict) (paired : bool)
    (rs : list fastq_record) : list fastq_record :=
  filter (fun r => negb (Dict.contains (read_id paired r) skip_ids)) rs.

(** The file written for a well-formed file: the records kept, or one
    empty line where the file read has no record at all. *)
Definition written_records (skip_ids : Dict.dict) (paired : bool)
    (rs : list fastq_record) : string :=
  match rs with
  | [] => NL
  | _ :: _ => fastq_text (kept skip_ids paired rs)
  end.

(** What [merge_skip_ids] returns when it returns. *)
Definition merged_skip_ids (base_skip_ids new_skip_ids : Dict.dict)
  : Dict.dict :=
  dict_update (dict_update Dict.empty base_skip_ids) new_skip_ids.

(** The library is paired-end and comes as two files. *)
Definition split_files (a : Args.t) : bool :=
  Args.pairedend a && negb (Args.interleaved a).

(** A read of [n] bases under the header [h]. *)
Definition example_read (h : string) (n : nat) : fastq_record :=
  FastqRecord h (string_of_list_ascii (repeat "A"%char n)) "+"
    (string_of_list_ascii (repeat "I"%char n)).

(** The arguments of a second run in the mode and with the threshold of
    [a], on the file or the two files a run with [a] writes. *)
Definition rerun_args (a : Args.t) (outputfile : string) : Args.t :=
  if split_files a then
    Args.Make (Args.singleend a) (Args.pairedend a) (Args.interleaved a)
      (Some (output_name (Args.outputfile a) (Some "R1")))
      (Some (output_name (Args.outputfile a) (Some "R2")))
      outputfile (Args.length a)
  else
    Args.Make (Args.singleend a) (Args.pairedend a) (Args.interleaved a)
      (Some (Args.outputfile a)) (Args.reversereads a)
      outputfile (Args.length a).

(** The file or the two files a run with [a] writes. *)
Definition outputs (a : Args.t) : list string :=
  if split_files a then
    [output_name (Args.outputfile a) (Some "R1");
     output_name (Args.outputfile a) (Some "R2")]
  else [Args.outputfile a].

(** Every character of [s] passes [p]. *)
Fixpoint every (p : ascii -> bool) (s : string) : bool :=
  match s with
  | EmptyString => true
  | String c s' => p c && every p s'
  end.

(** No space and no tabulator in [s]. *)
Definition no_blank (s : string) : bool :=
  every (fun c => negb (Re.is_blank c)) s.

(** What [parser.parse_args()] hands to the checks of [getargs]: an option
    that takes a value may be absent.  (The parser itself has refused
    [--singleend] together with [--pairedend], the two being one exclusive
    group, and has put the default in [length].) *)
Module Namespace.

Record t : Type := Make {
  singleend : bool;
  pairedend : bool;
  interleaved : bool;
  forwardreads : option string;
  reversereads : option string;
  outputfile : option string;
  length : Z
}.

End Namespace.

(** The checks of [getargs] behind [parse_args], on [argc] the length of
    [sys.argv]; a complaint is the text printed, less its line feed. *)
Definition getargs (argc : nat) (args : Namespace.t) : M Args.t :=
  let usage (text : string) : M Args.t :=
    print (Complaint text) ;;; print Help ;;; sys_exit (-1)%Z in
  if Nat.ltb argc 2 then print Help ;;; sys_exit (-1)%Z
  else if negb (Args.truthy (Namespace.outputfile args)) then
    usage "must specify --outputfile"
  else if negb (Namespace.singleend args) && negb (Namespace.pairedend args)
  then usage "must specify either --singleend or --pairedend"
  else if Namespace.singleend args
          && Args.truthy (Namespace.reversereads args)
  then usage "cannot specify --reversereads and --singleend"
  else if Namespace.pairedend args
          && (negb (Namespace.interleaved args)
              && negb (Args.truthy (Namespace.reversereads args)))
  then
    usage
      "for pairedend, must also specify either --interleaved or --reversereads"
  else if Namespace.interleaved args
          && Args.truthy (Namespace.reversereads args)
  then
    usage
      "for pairedend, must also specify either --interleaved or --reversereads, but not both"
  else
    ret (Args.Make (Namespace.singleend args) (Namespace.pairedend args)
           (Namespace.interleaved args) (Namespace.forwardreads args)
           (Namespace.reversereads args)
           (match Namespace.outputfile args with
            | Some outputfile => outputfile
            | None => ""
            end)
           (Namespace.length args)).

(** No match of "any character, then [lit]", case ignored, in [s]. *)
Fixpoint free_of (lit s : string) : bool :=
  match s with
  | EmptyString => true
  | String _ s' => negb (Re.literal_here lit s') && free_of lit s'
  end.

(** * Properties *)

(** ** parse_read_id *)

(** C3, as the code has it: with the paired-end flag set, ["@SIM.1/1"] and
    ["@SIM.1/2"] both normalise to ["@SIM1"]; the last full stop goes with
    the mate suffix. *)
Theorem parse_read_id_sim_mates :
  parse_read_id "@SIM.1/1" true = "@SIM1"
  /\ parse_read_id "@SIM.1/2" true = "@SIM1".
Proof. split; reflexivity. Qed.

(** C3, as the specification states it, fails: the normalised identifier of
    ["@SIM.1/1"] is not ["@SIM.1"]. *)
Lemma parse_read_id_sim_keeps_no_dot :
  parse_read_id "@SIM.1/1" true <> "@SIM.1".
Proof. vm_compute. discriminate. Qed.

(** C2 at the pair of headers the source itself names: ["@SRR5891520.1.1"]
    and ["@SRR5891520.1.2"] are the two headers of one fragment, and with
    the paired-end flag set they normalise to two different
    identifiers. *)
Theorem parse_read_id_splits_dotted_mates :
  mate_headers "@SRR5891520.1.1" "@SRR5891520.1.2"
  /\ parse_read_id "@SRR5891520.1.1" true = "@SRR5891520.11"
  /\ parse_read_id "@SRR5891520.1.2" true = "@SRR5891520.12"
  /\ parse_read_id "@SRR5891520.1.1" true
     <> parse_read_id "@SRR5891520.1.2" true.
Proof.
  split.
  - exists "@SRR5891520.1", "", "", "."%char, "1"%char, "2"%char.
    repeat split; reflexivity.
  - repeat split; try reflexivity.
    vm_compute. discriminate.
Qed.

(** ** The name of the output file *)

(** C6 at an output name whose directory also carries the extension: the
    substitution drops every ["?fastq"], not the trailing one only, so the
    file is named into another directory than the specification's rule
    gives. *)
Theorem output_name_rewrites_directory :
  output_name "filtered_fastq/sample.fastq" (Some "R1")
  = "filtered/sample.R1.fastq"
  /\ spec_output_name "filtered_fastq/sample.fastq" "R1"
     = "filtered_fastq/sample.R1.fastq"
  /\ output_name "reads.gz_run/out.fq.gz" (Some "R2") = "reads_run/out.R2.fq.gz"
  /\ spec_output_name "reads.gz_run/out.fq.gz" "R2"
     = "reads.gz_run/out.R2.fq.gz".
Proof. repeat split; reflexivity. Qed.

(** ** Lists of lines, four at a time *)

Lemma list_ind4 (A : Type) (P : list A -> Prop) :
  P [] ->
  (forall a, P [a]) ->
  (forall a b, P [a; b]) ->
  (forall a b c, P [a; b; c]) ->
  (forall a b c d l, P l -> P (a :: b :: c :: d :: l)) ->
  forall l, P l.
Proof.
  intros H0 H1 H2 H3 H4.
  refine (fix F (l : list A) : P l :=
            match l with
            | [] => H0
            | [a] => H1 a
            | [a; b] => H2 a b
            | [a; b; c] => H3 a b c
            | a :: b :: c :: d :: l' => H4 a b c d l' (F l')
            end).
Qed.

(** ** The loop of get_skip_ids, group by group *)

(** The three kinds of turn of the loop: on the first line of a group, on
    the line behind a header, on any later line. *)

Lemma scan_line_first (skip_len : Z) (paired : bool) (st : scan_state)
    (raw : string) :
  scan_this_id st = None ->
  scan_counter st = 0 \/ scan_counter st = 4 ->
  let st' := scan_line skip_len paired st raw in
  scan_counter st' = 1
  /\ these_skip_ids st' = these_skip_ids st
  /\ scan_this_id st'
     = (if Str.startswith (Str.rstrip raw) "@"
        then Some (parse_read_id (Str.rstrip raw) paired) else None).
Proof.
  destruct st as [id n cnt dict pr]; cbn [scan_this_id scan_counter].
  intros -> [-> | ->]; unfold scan_line;
    cbn [scan_counter scan_this_id these_skip_ids Nat.eqb];
    destruct (Str.startswith (Str.rstrip raw) "@"); cbn; auto.
Qed.

Lemma scan_line_second (skip_len : Z) (paired : bool) (st : scan_state)
    (raw : string) :
  scan_counter st = 1 ->
  let st' := scan_line skip_len paired st raw in
  scan_counter st' = 2
  /\ scan_this_id st' = None
  /\ these_skip_ids st'
     = match scan_this_id st with
       | Some this_id =>
           if (Z.of_nat (String.length (Str.rstrip raw)) <=? skip_len)%Z
           then Dict.set this_id true (these_skip_ids st)
           else these_skip_ids st
       | None => these_skip_ids st
       end.
Proof.
  destruct st as [id n cnt dict pr]; cbn [scan_this_id scan_counter].
  intros ->; unfold scan_line;
    cbn [scan_counter scan_this_id these_skip_ids Nat.eqb];
    rewrite andb_false_r; destruct id; cbn; auto.
Qed.

Lemma scan_line_later (skip_len : Z) (paired : bool) (st : scan_state)
    (raw : string) :
  scan_this_id st = None ->
  scan_counter st = 2 \/ scan_counter st = 3 ->
  let st' := scan_line skip_len paired st raw in
  scan_counter st' = S (scan_counter st)
  /\ scan_this_id st' = None
  /\ these_skip_ids st' = these_skip_ids st.
Proof.
  destruct st as [id n cnt dict pr]; cbn [scan_this_id scan_counter].
  intros -> [-> | ->]; unfold scan_line;
    cbn [scan_counter scan_this_id these_skip_ids Nat.eqb];
    rewrite andb_false_r; cbn; auto.
Qed.

(** A whole group of four lines, read from a boundary, ends on a boundary
    and has done to the dictionary what [scan_group] says. *)
Lemma scan_four_lines (skip_len : Z) (paired : bool) (st : scan_state)
    (a b c d : string) :
  scan_boundary st ->
  let st' :=
    fold_left (scan_line skip_len paired) [a; b; c; d] st in
  scan_boundary st'
  /\ these_skip_ids st'
     = scan_group skip_len paired (these_skip_ids st)
         (map Str.rstrip [a; b; c; d]).
Proof.
  intros [Hid Hn]. cbn [fold_left map scan_group].
  destruct (scan_line_first skip_len paired st a Hid Hn) as (N1 & D1 & I1).
  set (s1 := scan_line skip_len paired st a) in *.
  destruct (scan_line_second skip_len paired s1 b N1) as (N2 & I2 & D2).
  set (s2 := scan_line skip_len paired s1 b) in *.
  destruct (scan_line_later skip_len paired s2 c I2 (or_introl N2))
    as (N3 & I3 & D3).
  set (s3 := scan_line skip_len paired s2 c) in *.
  rewrite N2 in N3.
  destruct (scan_line_later skip_len paired s3 d I3 (or_intror N3))
    as (N4 & I4 & D4).
  set (s4 := scan_line skip_len paired s3 d) in *.
  rewrite N3 in N4.
  split; [split; [exact I4 | right; exact N4] |].
  rewrite D4, D3, D2, I1, D1.
  destruct (Str.startswith (Str.rstrip a) "@"); cbn [andb]; reflexivity.
Qed.

(** Fewer than four lines at the end of the file: the same, without the
    boundary. *)
Lemma scan_last_lines (skip_len : Z) (paired : bool) (st : scan_state)
    (ls : list string) :
  scan_boundary st ->
  List.length ls < 4 ->
  these_skip_ids (fold_left (scan_line skip_len paired) ls st)
  = fold_left (scan_group skip_len paired) (groups4 (map Str.rstrip ls))
      (these_skip_ids st).
Proof.
  intros [Hid Hn] Hlen.
  destruct ls as [| a [| b [| c [| d ls]]]];
    cbn [List.length] in Hlen; try lia;
    cbn [fold_left map groups4 scan_group]; try reflexivity.
  - destruct (scan_line_first skip_len paired st a Hid Hn) as (N1 & D1 & I1).
    exact D1.
  - destruct (scan_line_first skip_len paired st a Hid Hn) as (N1 & D1 & I1).
    set (s1 := scan_line skip_len paired st a) in *.
    destruct (scan_line_second skip_len paired s1 b N1) as (N2 & I2 & D2).
    rewrite D2, I1, D1.
    destruct (Str.startswith (Str.rstrip a) "@"); cbn [andb]; reflexivity.
  - destruct (scan_line_first skip_len paired st a Hid Hn) as (N1 & D1 & I1).
    set (s1 := scan_line skip_len paired st a) in *.
    destruct (scan_line_second skip_len paired s1 b N1) as (N2 & I2 & D2).
    set (s2 := scan_line skip_len paired s1 b) in *.
    destruct (scan_line_later skip_len paired s2 c I2 (or_introl N2))
      as (N3 & I3 & D3).
    rewrite D3, D2, I1, D1.
    destruct (Str.startswith (Str.rstrip a) "@"); cbn [andb]; reflexivity.
Qed.

Lemma scan_lines_from_boundary (skip_len : Z) (paired : bool) :
  forall lines st,
    scan_boundary st ->
    these_skip_ids (fold_left (scan_line skip_len paired) lines st)
    = fold_left (scan_group skip_len paired)
        (groups4 (map Str.rstrip lines)) (these_skip_ids st).
Proof.
  induction lines as [| a | a b | a b c | a b c d lines IH] using list_ind4;
    intros st Hst;
    try (apply scan_last_lines; [exact Hst | cbn; lia]).
  destruct (scan_four_lines skip_len paired st a b c d Hst) as [Hst' Hd].
  change (fold_left (scan_line skip_len paired) (a :: b :: c :: d :: lines) st)
    with (fold_left (scan_line skip_len paired) lines
            (fold_left (scan_line skip_len paired) [a; b; c; d] st)).
  rewrite (IH _ Hst'), Hd. reflexivity.
Qed.

Lemma scan_lines_groups (skip_len : Z) (paired : bool) (lines : list string) :
  these_skip_ids (scan_lines skip_len paired lines)
  = fold_left (scan_group skip_len paired)
      (groups4 (map Str.rstrip lines)) Dict.empty.
Proof.
  unfold scan_lines. rewrite scan_lines_from_boundary.
  - reflexivity.
  - split; [reflexivity | left; reflexivity].
Qed.

(** ** The loop of write_filtered_output, group by group *)

(** The two kinds of turn of the loop: on the first line of a group, where
    the group before it is flushed, and on a later line. *)

Lemma write_line_first (skip_ids : Dict.dict) (paired : bool)
    (st : write_state) (raw : string) :
  write_counter st = 4
  \/ (write_counter st = 0 /\ read_buf st = [] /\ skip_read st = false) ->
  let st' := write_line skip_ids paired st raw in
  write_counter st' = 1
  /\ read_buf st' = [Str.rstrip raw]
  /\ skip_read st' = group_skipped skip_ids paired [Str.rstrip raw]
  /\ out st' = (if Nat.eqb (write_counter st) 4 then final_out st else out st).
Proof.
  destruct st as [id n buf skip cnt o pr];
    cbn [write_counter read_buf skip_read].
  intros [-> | (-> & -> & ->)]; unfold write_line, final_out, group_skipped;
    cbn [write_this_id write_counter read_buf skip_read write_read_cnt out
         write_printed Nat.eqb];
    rewrite andb_true_r;
    destruct (Str.startswith (Str.rstrip raw) "@");
    cbn [write_this_id write_counter read_buf skip_read write_read_cnt out
         write_printed andb app Nat.add];
    try destruct (Dict.contains _ skip_ids); auto.
Qed.

Lemma write_line_later (skip_ids : Dict.dict) (paired : bool)
    (st : write_state) (raw : string) :
  write_counter st = 1 \/ write_counter st = 2 \/ write_counter st = 3 ->
  let st' := write_line skip_ids paired st raw in
  write_counter st' = S (write_counter st)
  /\ read_buf st' = read_buf st ++ [Str.rstrip raw]
  /\ skip_read st' = skip_read st
  /\ out st' = out st.
Proof.
  destruct st as [id n buf skip cnt o pr];
    cbn [write_counter read_buf skip_read out].
  intros [-> | [-> | ->]]; unfold write_line;
    cbn [write_this_id write_counter read_buf skip_read write_read_cnt out
         write_printed Nat.eqb];
    rewrite andb_false_r;
    cbn [write_this_id write_counter read_buf skip_read write_read_cnt out
         write_printed Nat.add]; auto.
Qed.

(** The lines of one group, read from a boundary, are gathered in the
    buffer. *)
Lemma write_group_lines (skip_ids : Dict.dict) (paired : bool)
    (st : write_state) (a : string) (ls : list string) :
  write_boundary st ->
  List.length ls <= 3 ->
  let st' := fold_left (write_line skip_ids paired) (a :: ls) st in
  write_counter st' = S (List.length ls)
  /\ read_buf st' = map Str.rstrip (a :: ls)
  /\ skip_read st' = group_skipped skip_ids paired (map Str.rstrip (a :: ls))
  /\ out st' = carried_out st.
Proof.
  intros Hst Hlen. cbn [fold_left].
  destruct (write_line_first skip_ids paired st a Hst) as (N1 & B1 & S1 & O1).
  fold (carried_out st) in O1.
  generalize dependent (write_line skip_ids paired st a). intros s1 N1 B1 S1 O1.
  destruct ls as [| b ls]; [repeat split; assumption |]. cbn [fold_left].
  destruct (write_line_later skip_ids paired s1 b (or_introl N1))
    as (N2 & B2 & S2 & O2).
  rewrite N1 in N2; rewrite B1 in B2; rewrite S1 in S2; rewrite O1 in O2.
  generalize dependent (write_line skip_ids paired s1 b). intros s2 N2 B2 S2 O2.
  destruct ls as [| c ls]; [repeat split; assumption |]. cbn [fold_left].
  destruct (write_line_later skip_ids paired s2 c (or_intror (or_introl N2)))
    as (N3 & B3 & S3 & O3).
  rewrite N2 in N3; rewrite B2 in B3; rewrite S2 in S3; rewrite O2 in O3.
  generalize dependent (write_line skip_ids paired s2 c). intros s3 N3 B3 S3 O3.
  destruct ls as [| d ls]; [repeat split; assumption |]. cbn [fold_left].
  destruct (write_line_later skip_ids paired s3 d (or_intror (or_intror N3)))
    as (N4 & B4 & S4 & O4).
  rewrite N3 in N4; rewrite B3 in B4; rewrite S3 in S4; rewrite O3 in O4.
  generalize dependent (write_line skip_ids paired s3 d). intros s4 N4 B4 S4 O4.
  destruct ls as [| e ls]; [repeat split; assumption |].
  cbn [List.length] in Hlen. lia.
Qed.

Lemma final_out_group (skip_ids : Dict.dict) (paired : bool)
    (st : write_state) (prev : list string) (g : list string) :
  read_buf st = g ->
  skip_read st = group_skipped skip_ids paired g ->
  out st = prev ->
  final_out st = prev ++ written_groups skip_ids paired [g].
Proof.
  intros B S O. unfold final_out, written_groups. rewrite S, O, B.
  cbn [filter map].
  destruct (group_skipped skip_ids paired g); cbn [negb map];
    [now rewrite app_nil_r | reflexivity].
Qed.

Lemma written_groups_cons (skip_ids : Dict.dict) (paired : bool)
    (g : list string) (gs : list (list string)) :
  written_groups skip_ids paired (g :: gs)
  = written_groups skip_ids paired [g] ++ written_groups skip_ids paired gs.
Proof.
  unfold written_groups. cbn [filter].
  destruct (group_skipped skip_ids paired g); reflexivity.
Qed.

Lemma fold_left_four (A B : Type) (f : A -> B -> A) (a b c d : B)
    (l : list B) (x : A) :
  fold_left f (a :: b :: c :: d :: l) x
  = fold_left f l (fold_left f [a; b; c; d] x).
Proof. reflexivity. Qed.

Lemma write_lines_from_boundary (skip_ids : Dict.dict) (paired : bool) :
  forall lines st,
    write_boundary st ->
    lines <> [] ->
    final_out (fold_left (write_line skip_ids paired) lines st)
    = carried_out st
      ++ written_groups skip_ids paired (groups4 (map Str.rstrip lines)).
Proof.
  induction lines as [| a | a b | a b c | a b c d lines IH] using list_ind4;
    intros st Hst Hne; [congruence | | | |].
  - destruct (write_group_lines skip_ids paired st a [] Hst)
      as (N & B & S & O); [cbn [List.length]; lia |].
    exact (final_out_group skip_ids paired _ _ _ B S O).
  - destruct (write_group_lines skip_ids paired st a [b] Hst)
      as (N & B & S & O); [cbn [List.length]; lia |].
    exact (final_out_group skip_ids paired _ _ _ B S O).
  - destruct (write_group_lines skip_ids paired st a [b; c] Hst)
      as (N & B & S & O); [cbn [List.length]; lia |].
    exact (final_out_group skip_ids paired _ _ _ B S O).
  - destruct (write_group_lines skip_ids paired st a [b; c; d] Hst)
      as (N & B & S & O); [cbn [List.length]; lia |].
    cbn [List.length] in N.
    pose proof (final_out_group skip_ids paired _ _ _ B S O) as F4.
    rewrite fold_left_four.
    generalize dependent
      (fold_left (write_line skip_ids paired) [a; b; c; d] st).
    intros s4 N B S O F4.
    cbn [map groups4].
    rewrite written_groups_cons, app_assoc.
    change (map Str.rstrip [a; b; c; d])
      with [Str.rstrip a; Str.rstrip b; Str.rstrip c; Str.rstrip d] in F4.
    rewrite <- F4.
    destruct lines as [| e lines].
    + cbn [fold_left map groups4]. unfold written_groups at 1.
      cbn [filter map]. now rewrite app_nil_r.
    + rewrite (IH s4 (or_introl N)) by discriminate.
      unfold carried_out. rewrite N. reflexivity.
Qed.

(** The whole of what [write_filtered_output] writes: the groups it does
    not skip, each flushed; a file with no line still yields one flush. *)
Lemma write_lines_groups (skip_ids : Dict.dict) (paired : bool)
    (lines : list string) :
  out (write_lines skip_ids paired lines)
  = written_groups skip_ids paired (groups_seen (map Str.rstrip lines)).
Proof.
  change (out (write_lines skip_ids paired lines))
    with (final_out (fold_left (write_line skip_ids paired) lines write_init)).
  destruct lines as [| a lines]; [reflexivity |].
  rewrite write_lines_from_boundary.
  - reflexivity.
  - right. repeat split; reflexivity.
  - discriminate.
Qed.

(** ** Strings *)

Lemma append_empty_r (s : string) : s +++ "" = s.
Proof. induction s as [| c s IH]; cbn; [reflexivity | now rewrite IH]. Qed.

Lemma append_assoc (s t u : string) : (s +++ t) +++ u = s +++ t +++ u.
Proof. induction s as [| c s IH]; cbn; [reflexivity | now rewrite IH]. Qed.

Lemma isspace_LF : Str.isspace Str.LF = true.
Proof. reflexivity. Qed.

Lemma rstrip_line_feed (s : string) : Str.rstrip (s +++ NL) = Str.rstrip s.
Proof.
  induction s as [| c s IH]; [reflexivity |].
  cbn [String.append Str.rstrip]. now rewrite IH.
Qed.

Lemma rstrip_idempotent (s : string) : Str.rstrip (Str.rstrip s) = Str.rstrip s.
Proof.
  induction s as [| c s IH]; [reflexivity |].
  cbn [Str.rstrip]. destruct (Str.rstrip s) as [| d t] eqn:E.
  - destruct (Str.isspace c) eqn:Ec; [reflexivity |].
    cbn [Str.rstrip]. now rewrite Ec.
  - cbn [Str.rstrip]. cbn [Str.rstrip] in IH.
    destruct (Str.rstrip t) as [| e u] eqn:Et.
    + destruct (Str.isspace d); congruence.
    + congruence.
Qed.

Lemma is_line_rstrip (l : string) : is_line l = true -> Str.rstrip l = l.
Proof.
  unfold is_line. intros H. apply andb_prop in H as [H _].
  now apply String.eqb_eq.
Qed.

Lemma is_line_no_line_feed (l : string) :
  is_line l = true -> Str.contains Str.LF l = false.
Proof.
  unfold is_line. intros H. apply andb_prop in H as [_ H].
  now apply negb_true_iff.
Qed.

(** A line and its line feed come out of [readlines] as one item. *)
Lemma readlines_line (l rest : string) :
  Str.contains Str.LF l = false ->
  Str.readlines (l +++ NL +++ rest) = (l +++ NL) :: Str.readlines rest.
Proof.
  induction l as [| c l IH]; intros H.
  - reflexivity.
  - cbn [Str.contains] in H. apply orb_false_elim in H as [Hc Hl].
    cbn [String.append Str.readlines].
    rewrite Ascii.eqb_sym, Hc, (IH Hl). reflexivity.
Qed.

(** A line that [readlines] yields has no line feed before its end, so
    that stripped of its white space it has none at all. *)
Lemma contains_rstrip (c : ascii) (s : string) :
  Str.contains c (Str.rstrip s) = true -> Str.contains c s = true.
Proof.
  induction s as [| d s IH]; [easy |].
  cbn [Str.rstrip Str.contains].
  destruct (Str.rstrip s) as [| e t].
  - destruct (Str.isspace d); cbn [Str.contains]; [easy |].
    rewrite orb_false_r. intros ->. reflexivity.
  - cbn [Str.contains] in *. intros H.
    apply orb_true_iff in H as [H | H]; [now rewrite H |].
    rewrite (IH H). apply orb_true_r.
Qed.

(** ** The text of a FASTQ file and its records *)

Lemma record_text_app (r : fastq_record) (rest : string) :
  record_text r +++ rest
  = header r +++ NL +++ sequence r +++ NL +++ separator r +++ NL
    +++ quality r +++ NL +++ rest.
Proof. unfold record_text. now rewrite !append_assoc. Qed.

Lemma well_formed_lines (r : fastq_record) :
  well_formed r = true ->
  Str.startswith (header r) "@" = true
  /\ is_line (header r) = true /\ is_line (sequence r) = true
  /\ is_line (separator r) = true /\ is_line (quality r) = true.
Proof.
  unfold well_formed, record_lines. cbn [forallb].
  rewrite !andb_true_iff. tauto.
Qed.

(** The lines of a well-formed file, stripped as both loops strip them,
    are the fields of its records. *)
Lemma stripped_lines_of_fastq_text (rs : list fastq_record) :
  forallb well_formed rs = true ->
  map Str.rstrip (Str.readlines (fastq_text rs)) = flat_map record_lines rs.
Proof.
  induction rs as [| r rs IH]; [reflexivity |].
  cbn [forallb fastq_text flat_map]. intros H.
  apply andb_prop in H as [Hr Hrs].
  destruct (well_formed_lines r Hr) as (_ & Hh & Hs & Hp & Hq).
  rewrite record_text_app.
  rewrite (readlines_line (header r)) by now apply is_line_no_line_feed.
  rewrite (readlines_line (sequence r)) by now apply is_line_no_line_feed.
  rewrite (readlines_line (separator r)) by now apply is_line_no_line_feed.
  rewrite (readlines_line (quality r)) by now apply is_line_no_line_feed.
  cbn [map]. rewrite !rstrip_line_feed, !is_line_rstrip by assumption.
  rewrite (IH Hrs). reflexivity.
Qed.

Lemma groups4_records (rs : list fastq_record) :
  groups4 (flat_map record_lines rs) = map record_lines rs.
Proof.
  induction rs as [| r rs IH]; [reflexivity |].
  cbn [flat_map record_lines app groups4 map]. now rewrite IH.
Qed.

Lemma groups_of_fastq_text (rs : list fastq_record) :
  forallb well_formed rs = true ->
  groups4 (map Str.rstrip (Str.readlines (fastq_text rs)))
  = map record_lines rs.
Proof.
  intros H. rewrite stripped_lines_of_fastq_text by exact H.
  apply groups4_records.
Qed.

Lemma flush_record (r : fastq_record) : flush (record_lines r) = record_text r.
Proof.
  unfold flush, Str.join, record_lines, record_text. cbn [String.concat].
  fold NL. now rewrite !append_assoc.
Qed.

Lemma concat_cons (x : string) (l : list string) :
  String.concat "" (x :: l) = x +++ String.concat "" l.
Proof.
  destruct l as [| y l]; cbn [String.concat];
    [now rewrite append_empty_r | reflexivity].
Qed.

Lemma concat_flushed_records (rs : list fastq_record) :
  String.concat "" (map flush (map record_lines rs)) = fastq_text rs.
Proof.
  induction rs as [| r rs IH]; [reflexivity |].
  cbn [map fastq_text]. now rewrite concat_cons, IH, flush_record.
Qed.

(** ** Dictionaries *)

Lemma get_set (k k' : string) (v : bool) (d : Dict.dict) :
  Dict.get k (Dict.set k' v d)
  = if String.eqb k k' then Some v else Dict.get k d.
Proof.
  induction d as [| [k0 v0] d IH]; cbn [Dict.set Dict.get].
  - reflexivity.
  - destruct (String.eqb k' k0) eqn:E0; cbn [Dict.get].
    + apply String.eqb_eq in E0. subst k0.
      destruct (String.eqb k k'); reflexivity.
    + destruct (String.eqb k k0) eqn:E1.
      * apply String.eqb_eq in E1. subst k0.
        rewrite String.eqb_sym in E0. now rewrite E0.
      * exact IH.
Qed.

Lemma contains_set (k k' : string) (v : bool) (d : Dict.dict) :
  Dict.contains k (Dict.set k' v d) = String.eqb k k' || Dict.contains k d.
Proof.
  unfold Dict.contains. rewrite get_set.
  destruct (String.eqb k k'); reflexivity.
Qed.

Lemma set_not_empty (k : string) (v : bool) (d : Dict.dict) :
  Dict.is_empty (Dict.set k v d) = false.
Proof.
  destruct d as [| [k0 v0] d]; cbn [Dict.set]; [reflexivity |].
  destruct (String.eqb k k0); reflexivity.
Qed.

Lemma is_empty_contains (d : Dict.dict) :
  Dict.is_empty d = true -> forall k, Dict.contains k d = false.
Proof. destruct d; [reflexivity | discriminate]. Qed.

Lemma contains_not_empty (k : string) (d : Dict.dict) :
  Dict.contains k d = true -> Dict.is_empty d = false.
Proof. destruct d; [discriminate | reflexivity]. Qed.

Lemma contains_keys (k : string) (d : Dict.dict) :
  Dict.contains k d = true <-> In k (Dict.keys d).
Proof.
  unfold Dict.contains, Dict.keys.
  induction d as [| [k0 v0] d IH]; cbn [Dict.get map fst In].
  - split; [discriminate | tauto].
  - destruct (String.eqb k k0) eqn:E.
    + apply String.eqb_eq in E. subst. tauto.
    + apply String.eqb_neq in E. rewrite IH.
      split; [tauto | intros [H | H]; congruence].
Qed.

Lemma all_true_empty : all_true Dict.empty.
Proof. intros k v H. discriminate. Qed.

Lemma all_true_set (k : string) (d : Dict.dict) :
  all_true d -> all_true (Dict.set k true d).
Proof.
  intros H k' v. rewrite get_set.
  destruct (String.eqb k' k); [congruence | apply H].
Qed.

Lemma get_head (k : string) (v : bool) (d : Dict.dict) :
  Dict.get k ((k, v) :: d) = Some v.
Proof. cbn [Dict.get]. now rewrite String.eqb_refl. Qed.

Lemma contains_update (k : string) (items base : Dict.dict) :
  Dict.contains k (dict_update base items)
  = Dict.contains k base || Dict.contains k items.
Proof.
  unfold dict_update. revert base.
  induction items as [| [k0 v0] items IH]; intros base; cbn [fold_left].
  - now rewrite orb_false_r.
  - rewrite IH, contains_set. unfold Dict.contains. cbn [Dict.get fst snd].
    destruct (String.eqb k k0); cbn [orb];
      [now rewrite orb_true_r | reflexivity].
Qed.

(** ** merge_skip_ids on dictionaries whose values are all [True] *)

Lemma merge_new_all_true (base : Dict.dict) :
  all_true base ->
  forall items merged,
    (forall k v, In (k, v) items -> v = true) ->
    merge_new base items merged = ret (dict_update merged items).
Proof.
  intros Hbase. induction items as [| [k v] items IH]; intros merged Hitems.
  - reflexivity.
  - cbn [merge_new]. assert (v = true) as -> by (apply (Hitems k); now left).
    assert (Hrest : forall k' v', In (k', v') items -> v' = true)
      by (intros k' v' H; apply (Hitems k'); now right).
    destruct (Dict.get k base) as [b |] eqn:E.
    + rewrite (Hbase k b E). cbn [Bool.eqb negb]. now apply IH.
    + now apply IH.
Qed.

Lemma all_true_items (d : Dict.dict) :
  NoDup (Dict.keys d) -> all_true d -> forall k v, In (k, v) d -> v = true.
Proof.
  unfold Dict.keys.
  induction d as [| [k0 v0] d IH]; intros Hnd Hall k v Hin; [easy |].
  cbn [map fst] in Hnd. inversion Hnd as [| ? ? Hnot Hnd']; subst.
  destruct Hin as [Heq | Hin].
  - inversion Heq; subst. apply (Hall k). apply get_head.
  - apply (IH Hnd') with (k := k); [| exact Hin].
    intros k' v' Hget. apply (Hall k'). cbn [Dict.get].
    destruct (String.eqb k' k0) eqn:E; [| exact Hget].
    apply String.eqb_eq in E. subst k'. exfalso. apply Hnot.
    apply contains_keys. unfold Dict.contains. now rewrite Hget.
Qed.

Lemma keys_set (k : string) (v : bool) (d : Dict.dict) :
  Dict.keys (Dict.set k v d)
  = if Dict.contains k d then Dict.keys d else Dict.keys d ++ [k].
Proof.
  unfold Dict.keys, Dict.contains.
  induction d as [| [k0 v0] d IH]; cbn [Dict.set Dict.get map fst app].
  - reflexivity.
  - destruct (String.eqb k k0) eqn:E; cbn [map fst]; [reflexivity |].
    rewrite IH. destruct (Dict.get k d); reflexivity.
Qed.

Lemma nodup_keys_set (k : string) (v : bool) (d : Dict.dict) :
  NoDup (Dict.keys d) -> NoDup (Dict.keys (Dict.set k v d)).
Proof.
  intros H. rewrite keys_set. destruct (Dict.contains k d) eqn:E; [exact H |].
  apply NoDup_app; [exact H | repeat constructor; easy |].
  intros x Hx [<- | []]. apply contains_keys in Hx. congruence.
Qed.

(** ** What the two passes compute from a text *)

Lemma scan_group_all_true (skip_len : Z) (paired : bool) (g : list string)
    (d : Dict.dict) :
  all_true d -> all_true (scan_group skip_len paired d g).
Proof.
  intros H. unfold scan_group.
  destruct g as [| h [| s g]]; try exact H.
  destruct (_ && _); [now apply all_true_set | exact H].
Qed.

Lemma scan_group_nodup (skip_len : Z) (paired : bool) (g : list string)
    (d : Dict.dict) :
  NoDup (Dict.keys d) -> NoDup (Dict.keys (scan_group skip_len paired d g)).
Proof.
  intros H. unfold scan_group.
  destruct g as [| h [| s g]]; try exact H.
  destruct (_ && _); [now apply nodup_keys_set | exact H].
Qed.

Lemma skip_of_all_true (skip_len : Z) (paired : bool) (text : string) :
  all_true (skip_of skip_len paired text)
  /\ NoDup (Dict.keys (skip_of skip_len paired text)).
Proof.
  unfold skip_of. rewrite scan_lines_groups.
  generalize (groups4 (map Str.rstrip (Str.readlines text))).
  assert (H : all_true Dict.empty /\ NoDup (Dict.keys Dict.empty))
    by (split; [apply all_true_empty | constructor]).
  revert H. generalize Dict.empty.
  intros d H gs. revert d H.
  induction gs as [| g gs IH]; intros d [H1 H2]; cbn [fold_left].
  - now split.
  - apply IH. split;
      [now apply scan_group_all_true | now apply scan_group_nodup].
Qed.

Lemma scan_groups_records (skip_len : Z) (paired : bool)
    (rs : list fastq_record) :
  forallb well_formed rs = true ->
  forall d,
    fold_left (scan_group skip_len paired) (map record_lines rs) d
    = skip_records skip_len paired rs d.
Proof.
  unfold skip_records.
  induction rs as [| r rs IH]; intros H d; [reflexivity |].
  cbn [forallb] in H. apply andb_prop in H as [Hr Hrs].
  destruct (well_formed_lines r Hr) as (Hh & _).
  cbn [map fold_left record_lines scan_group]. rewrite Hh. cbn [andb].
  now rewrite (IH Hrs).
Qed.

Lemma skip_of_fastq_text (skip_len : Z) (paired : bool)
    (rs : list fastq_record) :
  forallb well_formed rs = true ->
  skip_of skip_len paired (fastq_text rs)
  = skip_records skip_len paired rs Dict.empty.
Proof.
  intros H. unfold skip_of.
  rewrite scan_lines_groups, groups_of_fastq_text by exact H.
  now apply scan_groups_records.
Qed.

Lemma contains_skip_records (skip_len : Z) (paired : bool) (k : string)
    (rs : list fastq_record) :
  forall d,
    Dict.contains k (skip_records skip_len paired rs d)
    = Dict.contains k d
      || existsb (fun r => is_short skip_len r
                           && String.eqb k (read_id paired r)) rs.
Proof.
  unfold skip_records.
  induction rs as [| r rs IH]; intros d; cbn [fold_left existsb].
  - now rewrite orb_false_r.
  - rewrite IH. destruct (is_short skip_len r); cbn [andb orb].
    + rewrite contains_set.
      destruct (String.eqb k (read_id paired r)), (Dict.contains k d);
        reflexivity.
    + reflexivity.
Qed.

Lemma written_groups_records (skip_ids : Dict.dict) (paired : bool)
    (rs : list fastq_record) :
  forallb well_formed rs = true ->
  written_groups skip_ids paired (map record_lines rs)
  = map flush (map record_lines (kept skip_ids paired rs)).
Proof.
  unfold written_groups, kept.
  induction rs as [| r rs IH]; intros H; [reflexivity |].
  cbn [forallb] in H. apply andb_prop in H as [Hr Hrs].
  destruct (well_formed_lines r Hr) as (Hh & _).
  cbn [map filter]. unfold group_skipped at 1.
  cbn [record_lines]. rewrite Hh. cbn [andb].
  fold (read_id paired r).
  destruct (Dict.contains (read_id paired r) skip_ids); cbn [negb map];
    now rewrite (IH Hrs).
Qed.

Lemma written_fastq_text (skip_ids : Dict.dict) (paired : bool)
    (rs : list fastq_record) :
  forallb well_formed rs = true ->
  written skip_ids paired (fastq_text rs)
  = written_records skip_ids paired rs.
Proof.
  intros H. unfold written. rewrite write_lines_groups.
  destruct rs as [| r rs]; [reflexivity |].
  pose proof (stripped_lines_of_fastq_text _ H) as E.
  pose proof (groups_of_fastq_text _ H) as G.
  destruct (map Str.rstrip (Str.readlines (fastq_text (r :: rs))))
    as [| l ls] eqn:El; [discriminate E |].
  cbn [groups_seen]. rewrite G.
  rewrite written_groups_records by exact H.
  apply concat_flushed_records.
Qed.

(** ** Running the functions in a world *)

Lemma get_skip_ids_run (path : string) (skip_len : Z) (paired : bool)
    (w : world) (text : string) :
  files w path = Some text ->
  exists ms,
    get_skip_ids (Some path) skip_len paired w
    = (Returned (skip_of skip_len paired text),
       World (files w) (stdout w ++ ms)).
Proof.
  intros H.
  exists (ReadingInputFile (Some path)
          :: scan_printed (scan_lines skip_len paired (Str.readlines text))
          ++ [ReadsEvaluated
                (scan_read_cnt
                   (scan_lines skip_len paired (Str.readlines text)))]).
  unfold get_skip_ids, bind, print, print_all, require_path, ret, open_read.
  cbn [files stdout]. rewrite H. cbn [files stdout]. unfold skip_of.
  do 2 f_equal. rewrite <- !app_assoc. reflexivity.
Qed.

(** A dictionary [get_skip_ids] returned is the one of some text. *)
Lemma get_skip_ids_returned (readsfile : option string) (skip_len : Z)
    (paired : bool) (w w' : world) (d : Dict.dict) :
  get_skip_ids readsfile skip_len paired w = (Returned d, w') ->
  exists text, d = skip_of skip_len paired text.
Proof.
  unfold get_skip_ids, bind, print, print_all, require_path, ret, raise,
    open_read.
  destruct readsfile as [path |]; cbn [files stdout]; [| discriminate].
  destruct (files w path) as [text |]; [| discriminate].
  intros H. exists text. unfold skip_of. congruence.
Qed.

Lemma write_filtered_output_run (skip_ids : Dict.dict) (outputfile : string)
    (path : string) (paired : bool) (read_direction : option string)
    (w : world) (text : string) :
  files w path = Some text ->
  exists w',
    write_filtered_output skip_ids outputfile (Some path) paired
      read_direction w
    = (Returned (output_name outputfile read_direction), w')
    /\ forall q,
         files w' q
         = if String.eqb q (output_name outputfile read_direction)
           then Some (written skip_ids paired
                        (if String.eqb path
                              (output_name outputfile read_direction)
                         then "" else text))
           else files w q.
Proof.
  intros H.
  unfold write_filtered_output, bind, print, print_all, require_path, ret,
    open_read, store.
  cbn [files stdout].
  generalize (output_name outputfile read_direction). intros name.
  destruct (String.eqb path name) eqn:E.
  - eexists. split; [reflexivity |]. intros q. cbn [files].
    destruct (String.eqb q name); reflexivity.
  - rewrite H. eexists. split; [reflexivity |]. intros q. cbn [files].
    destruct (String.eqb q name); reflexivity.
Qed.

Lemma skip_of_items_true (skip_len : Z) (paired : bool) (text : string) :
  forall k v, In (k, v) (skip_of skip_len paired text) -> v = true.
Proof.
  destruct (skip_of_all_true skip_len paired text) as [H1 H2].
  now apply all_true_items.
Qed.

Lemma merge_skip_ids_of_scans (l1 l2 : Z) (p1 p2 : bool) (t1 t2 : string) :
  merge_skip_ids (skip_of l1 p1 t1) (skip_of l2 p2 t2)
  = ret (merged_skip_ids (skip_of l1 p1 t1) (skip_of l2 p2 t2)).
Proof.
  unfold merge_skip_ids. apply merge_new_all_true.
  - apply skip_of_all_true.
  - apply skip_of_items_true.
Qed.

Lemma contains_merged (k : string) (d1 d2 : Dict.dict) :
  Dict.contains k (merged_skip_ids d1 d2)
  = Dict.contains k d1 || Dict.contains k d2.
Proof. unfold merged_skip_ids. now rewrite !contains_update. Qed.

Lemma is_empty_update (items base : Dict.dict) :
  Dict.is_empty (dict_update base items)
  = Dict.is_empty base && Dict.is_empty items.
Proof.
  unfold dict_update. revert base.
  induction items as [| [k v] items IH]; intros base; cbn [fold_left].
  - now rewrite andb_true_r.
  - rewrite IH. cbn [fst snd]. rewrite set_not_empty.
    now rewrite andb_false_r.
Qed.

Lemma is_empty_merged (d1 d2 : Dict.dict) :
  Dict.is_empty (merged_skip_ids d1 d2)
  = Dict.is_empty d1 && Dict.is_empty d2.
Proof. unfold merged_skip_ids. now rewrite !is_empty_update. Qed.

Lemma skip_records_none_short (skip_len : Z) (paired : bool)
    (rs : list fastq_record) :
  (forall r, In r rs -> is_short skip_len r = false) ->
  forall d, skip_records skip_len paired rs d = d.
Proof.
  unfold skip_records.
  induction rs as [| r rs IH]; intros H d; cbn [fold_left]; [reflexivity |].
  rewrite (H r) by now left. apply IH. intros r' Hr'. apply H. now right.
Qed.

Lemma contains_short_record (skip_len : Z) (paired : bool)
    (rs : list fastq_record) (r : fastq_record) (d : Dict.dict) :
  In r rs -> is_short skip_len r = true ->
  Dict.contains (read_id paired r) (skip_records skip_len paired rs d) = true.
Proof.
  intros Hin Hshort. rewrite contains_skip_records.
  apply orb_true_iff. right. apply existsb_exists. exists r.
  split; [exact Hin |]. now rewrite Hshort, String.eqb_refl.
Qed.

Lemma contains_skip_records_iff (skip_len : Z) (paired : bool) (k : string)
    (rs : list fastq_record) :
  Dict.contains k (skip_records skip_len paired rs Dict.empty) = true
  <-> exists r, In r rs /\ read_id paired r = k
                /\ (sequence_length r <= skip_len)%Z.
Proof.
  rewrite contains_skip_records. cbn [orb Dict.contains Dict.get Dict.empty].
  rewrite existsb_exists. unfold is_short.
  split.
  - intros (r & Hin & H). apply andb_prop in H as [H1 H2].
    exists r. repeat split; [exact Hin | | now apply Z.leb_le].
    symmetry. now apply String.eqb_eq.
  - intros (r & Hin & <- & H). exists r. split; [exact Hin |].
    rewrite String.eqb_refl. apply andb_true_iff. split; [| reflexivity].
    now apply Z.leb_le.
Qed.

(** ** Runs of main *)

Lemma accepted_one_file (a : Args.t) :
  Args.accepted a = true -> split_files a = false ->
  Args.pairedend a && Args.truthy (Args.reversereads a) = false.
Proof.
  unfold Args.accepted, split_files.
  destruct (Args.singleend a), (Args.pairedend a), (Args.interleaved a),
    (Args.truthy (Args.reversereads a)), (String.eqb (Args.outputfile a) "");
    cbn; congruence.
Qed.

Lemma accepted_two_files (a : Args.t) :
  Args.accepted a = true -> split_files a = true ->
  Args.pairedend a = true /\ Args.truthy (Args.reversereads a) = true.
Proof.
  unfold Args.accepted, split_files.
  destruct (Args.singleend a), (Args.pairedend a), (Args.interleaved a),
    (Args.truthy (Args.reversereads a)), (String.eqb (Args.outputfile a) "");
    cbn; intuition congruence.
Qed.

(** One input file: a single-end library or an interleaved one. *)
Lemma main_one_file (a : Args.t) (w : world) (F text : string) :
  split_files a = false ->
  Args.pairedend a && Args.truthy (Args.reversereads a) = false ->
  Args.forwardreads a = Some F ->
  files w F = Some text ->
  exists w',
    main a w = (Returned 0%Z, w')
    /\ if Dict.is_empty (skip_of (Args.length a) (Args.pairedend a) text)
       then exists ms,
              w' = World (files w)
                     (stdout w ++ ms ++ [NoReadsFound (Args.length a); Done])
       else forall q,
              files w' q
              = if String.eqb q (Args.outputfile a)
                then Some (written
                             (skip_of (Args.length a) (Args.pairedend a) text)
                             (Args.pairedend a)
                             (if String.eqb F (Args.outputfile a)
                              then "" else text))
                else files w q.
Proof.
  intros Hs Hr HF Hw. unfold split_files in Hs.
  destruct (get_skip_ids_run F (Args.length a) (Args.pairedend a) w text Hw)
    as [ms Hget].
  unfold main. rewrite HF, Hs, Hr. unfold bind at 1. rewrite Hget.
  generalize dependent (skip_of (Args.length a) (Args.pairedend a) text).
  intros skip_ids Hget.
  unfold bind, ret, print. cbn [files stdout].
  destruct (Dict.is_empty skip_ids) eqn:E.
  - eexists. split; [reflexivity |]. exists ms.
    cbn [files stdout]. f_equal. now rewrite <- !app_assoc.
  - match goal with
    | |- context [write_filtered_output ?s ?o ?f ?p ?d ?w0] =>
        destruct (write_filtered_output_run s o F p d w0 text Hw)
          as (w' & Hrun & Hfiles)
    end.
    rewrite Hrun. eexists. split; [reflexivity |]. cbn [files]. exact Hfiles.
Qed.

(** Two input files.  What the files written hold is stated for input
    files that are neither of them one of the files written. *)
Lemma main_two_files (a : Args.t) (w : world) (F R tf tr : string) :
  split_files a = true ->
  Args.truthy (Args.reversereads a) = true ->
  Args.forwardreads a = Some F ->
  Args.reversereads a = Some R ->
  files w F = Some tf ->
  files w R = Some tr ->
  exists w',
    main a w = (Returned 0%Z, w')
    /\ if Dict.is_empty
            (merged_skip_ids (skip_of (Args.length a) true tf)
               (skip_of (Args.length a) true tr))
       then exists ms,
              w' = World (files w)
                     (stdout w ++ ms ++ [NoReadsFound (Args.length a); Done])
       else F <> output_name (Args.outputfile a) (Some "R1") ->
            R <> output_name (Args.outputfile a) (Some "R1") ->
            R <> output_name (Args.outputfile a) (Some "R2") ->
            forall q,
              files w' q
              = if String.eqb q (output_name (Args.outputfile a) (Some "R2"))
                then Some (written
                             (merged_skip_ids
                                (skip_of (Args.length a) true tf)
                                (skip_of (Args.length a) true tr))
                             true tr)
                else
                  if String.eqb q
                       (output_name (Args.outputfile a) (Some "R1"))
                  then Some (written
                               (merged_skip_ids
                                  (skip_of (Args.length a) true tf)
                                  (skip_of (Args.length a) true tr))
                               true tf)
                  else files w q.
Proof.
  intros Hs Ht HF HR HwF HwR.
  assert (Hp : Args.pairedend a = true)
    by (unfold split_files in Hs; now apply andb_prop in Hs).
  unfold split_files in Hs.
  destruct (get_skip_ids_run F (Args.length a) true w tf HwF) as [ms1 Hget1].
  destruct (get_skip_ids_run R (Args.length a) true
              (World (files w) (stdout w ++ ms1)) tr HwR) as [ms2 Hget2].
  cbn [files stdout] in Hget2.
  unfold main. rewrite Hs, Ht, Hp, HF, HR. cbn [andb].
  unfold bind at 1. rewrite Hget1.
  unfold bind at 1. unfold bind at 1. rewrite Hget2.
  rewrite merge_skip_ids_of_scans.
  generalize dependent
    (merged_skip_ids (skip_of (Args.length a) true tf)
       (skip_of (Args.length a) true tr)).
  intros skip_ids.
  unfold bind, ret, print. cbn [files stdout].
  destruct (Dict.is_empty skip_ids) eqn:E.
  - eexists. split; [reflexivity |]. exists (ms1 ++ ms2).
    cbn [files stdout]. f_equal. now rewrite <- !app_assoc.
  - match goal with
    | |- context [write_filtered_output ?s ?o (Some F) ?p ?d ?w0] =>
        destruct (write_filtered_output_run s o F p d w0 tf HwF)
          as (w1 & Hrun1 & Hfiles1)
    end.
    rewrite Hrun1.
    destruct (files w1 R) as [tr1 |] eqn:HwR1.
    + destruct (write_filtered_output_run skip_ids (Args.outputfile a) R true
                  (Some "R2") w1 tr1 HwR1) as (w2 & Hrun2 & Hfiles2).
      rewrite Hrun2.
      eexists. split; [reflexivity |]. intros HF1 HR1 HR2 q.
      apply String.eqb_neq in HF1, HR1, HR2.
      rewrite HF1 in Hfiles1. rewrite HR2 in Hfiles2.
      rewrite Hfiles1, HR1 in HwR1. cbn [files] in HwR1.
      assert (tr1 = tr) as -> by congruence.
      cbn [files]. rewrite Hfiles2, Hfiles1. reflexivity.
    + exfalso. rewrite Hfiles1 in HwR1. cbn [files] in HwR1.
      destruct (String.eqb R (output_name (Args.outputfile a) (Some "R1")));
        congruence.
Qed.

(** ** The two output names of a library in two files *)

Lemma output_name_direction (outputfile : string) :
  exists base rest,
    forall direction,
      output_name outputfile (Some direction)
      = base +++ "." +++ direction +++ "." +++ rest.
Proof.
  unfold output_name.
  destruct (Str.endswith (Str.lower outputfile) ".gz").
  - set (o := Re.sub_dot_literal "gz" outputfile).
    set (e := if Str.endswith (Str.lower o) ".fq" then "fq" else "fastq").
    exists (Re.sub_dot_literal e o), (e +++ ".gz"). intros direction.
    generalize (Re.sub_dot_literal e o). intros base. clearbody e.
    rewrite (append_assoc base), (append_assoc "."),
      (append_assoc direction), (append_assoc ".").
    reflexivity.
  - set (e := if Str.endswith (Str.lower outputfile) ".fq"
              then "fq" else "fastq").
    exists (Re.sub_dot_literal e outputfile), e. intros direction.
    reflexivity.
Qed.

Lemma append_inv_head (s t u : string) : s +++ t = s +++ u -> t = u.
Proof.
  induction s as [| c s IH]; cbn; intros H; [exact H |].
  apply IH. now injection H.
Qed.

Lemma output_name_mates_differ (outputfile : string) :
  output_name outputfile (Some "R1") <> output_name outputfile (Some "R2").
Proof.
  destruct (output_name_direction outputfile) as (base & rest & H).
  rewrite !H. intros E. apply append_inv_head in E. discriminate E.
Qed.

Lemma output_name_truthy (outputfile direction : string) :
  Args.truthy (Some (output_name outputfile (Some direction))) = true.
Proof.
  destruct (output_name_direction outputfile) as (base & rest & H).
  rewrite H. destruct base; reflexivity.
Qed.

(** ** The records kept *)

Lemma kept_In (skip_ids : Dict.dict) (paired : bool)
    (rs : list fastq_record) (r : fastq_record) :
  In r (kept skip_ids paired rs)
  <-> In r rs /\ Dict.contains (read_id paired r) skip_ids = false.
Proof.
  unfold kept. rewrite filter_In.
  destruct (Dict.contains (read_id paired r) skip_ids); cbn; intuition.
Qed.

Lemma kept_all (paired : bool) (rs : list fastq_record) :
  kept Dict.empty paired rs = rs.
Proof.
  unfold kept. induction rs as [| r rs IH]; [reflexivity |].
  cbn [filter]. rewrite IH. reflexivity.
Qed.

Lemma kept_well_formed (skip_ids : Dict.dict) (paired : bool)
    (rs : list fastq_record) :
  forallb well_formed rs = true ->
  forallb well_formed (kept skip_ids paired rs) = true.
Proof.
  rewrite !forallb_forall. intros H r Hr. apply H.
  now apply kept_In in Hr.
Qed.

Lemma NoDup_map_In_inj (A B : Type) (f : A -> B) (l : list A) (x y : A) :
  NoDup (map f l) -> In x l -> In y l -> f x = f y -> x = y.
Proof.
  induction l as [| a l IH]; cbn [map]; intros Hnd Hx Hy E; [easy |].
  inversion Hnd as [| ? ? Hnot Hnd']; subst.
  destruct Hx as [-> | Hx], Hy as [-> | Hy].
  - reflexivity.
  - exfalso. apply Hnot. rewrite E. now apply in_map.
  - exfalso. apply Hnot. rewrite <- E. now apply in_map.
  - now apply IH.
Qed.

(** With identifiers that are all different, a record is left out exactly
    when it is short itself. *)
Lemma kept_distinct_ids (skip_len : Z) (paired : bool)
    (rs : list fastq_record) :
  NoDup (map (read_id paired) rs) ->
  kept (skip_records skip_len paired rs Dict.empty) paired rs
  = filter (fun r => (skip_len <? sequence_length r)%Z) rs.
Proof.
  intros Hnd. unfold kept. apply filter_ext_in. intros r Hr.
  rewrite contains_skip_records. cbn [Dict.contains Dict.get Dict.empty orb].
  rewrite Z.ltb_antisym. f_equal. fold (is_short skip_len r).
  destruct (is_short skip_len r) eqn:Hshort.
  - apply existsb_exists. exists r. split; [exact Hr |].
    now rewrite Hshort, String.eqb_refl.
  - destruct (existsb _ rs) eqn:E; [| reflexivity].
    apply existsb_exists in E as (r' & Hr' & H).
    apply andb_prop in H as [H1 H2]. apply String.eqb_eq in H2.
    assert (r = r') by now apply (NoDup_map_In_inj _ _ (read_id paired) rs).
    subst r'. congruence.
Qed.

(** No record kept is short: a second pass over the records kept finds
    nothing. *)
Lemma skip_records_kept (skip_len : Z) (paired : bool)
    (rs all : list fastq_record) (skip_ids : Dict.dict) :
  (forall r, In r all -> is_short skip_len r = true ->
             Dict.contains (read_id paired r) skip_ids = true) ->
  (forall r, In r rs -> In r all) ->
  skip_records skip_len paired (kept skip_ids paired rs) Dict.empty
  = Dict.empty.
Proof.
  intros H Hsub. apply skip_records_none_short. intros r Hr.
  apply kept_In in Hr as [Hin Hc].
  destruct (is_short skip_len r) eqn:E; [| reflexivity].
  rewrite (H r (Hsub r Hin) E) in Hc. discriminate.
Qed.

Lemma fastq_text_not_empty (rs : list fastq_record) :
  rs <> [] -> Str.readlines (fastq_text rs) <> [].
Proof.
  destruct rs as [| r rs]; [easy |]. intros _.
  cbn [fastq_text]. rewrite record_text_app.
  destruct (header r) as [| c h]; cbn.
  - discriminate.
  - destruct (Ascii.eqb c Str.LF); [discriminate |].
    destruct (Str.readlines _); discriminate.
Qed.

(** ** Example reads *)

(** * Properties of a whole run *)

Lemma skip_of_none_short (skip_len : Z) (paired : bool)
    (rs : list fastq_record) :
  forallb well_formed rs = true ->
  (forall r, In r rs -> (skip_len < sequence_length r)%Z) ->
  skip_of skip_len paired (fastq_text rs) = Dict.empty.
Proof.
  intros Hwf H. rewrite skip_of_fastq_text by exact Hwf.
  apply skip_records_none_short. intros r Hr.
  unfold is_short. apply Z.leb_gt. now apply H.
Qed.

(** C10: when the file read has no line, [write_filtered_output] still
    flushes its empty buffer after the loop, and the file written holds one
    line feed, whatever the dictionary of identifiers. *)
Theorem write_filtered_output_no_line (skip_ids : Dict.dict)
    (outputfile path : string) (paired : bool)
    (read_direction : option string) (w : world) (text : string) :
  files w path = Some text ->
  Str.readlines text = [] ->
  exists w',
    write_filtered_output skip_ids outputfile (Some path) paired
      read_direction w
    = (Returned (output_name outputfile read_direction), w')
    /\ files w' (output_name outputfile read_direction) = Some NL.
Proof.
  intros H E.
  destruct (write_filtered_output_run skip_ids outputfile path paired
              read_direction w text H) as (w' & Hrun & Hfiles).
  exists w'. split; [exact Hrun |].
  rewrite Hfiles, String.eqb_refl. f_equal. unfold written.
  destruct (String.eqb path _); [reflexivity | now rewrite E].
Qed.

Lemma write_filtered_output_no_line_witness :
  exists w',
    write_filtered_output [("@r1", true)] "out.fastq" (Some "in.fastq") false
      None (World (disk [("in.fastq", "")]) [])
    = (Returned (output_name "out.fastq" None), w')
    /\ files w' (output_name "out.fastq" None) = Some NL.
Proof.
  apply (write_filtered_output_no_line [("@r1", true)] "out.fastq"
           "in.fastq" false None (World (disk [("in.fastq", "")]) []) "");
    reflexivity.
Defined.

(** C7: for two dictionaries that [get_skip_ids] returned,
    [merge_skip_ids] returns, in a world it leaves as it found it (nothing
    printed, no exit), a dictionary whose keys are the keys of the one and
    the keys of the other. *)
Theorem merge_skip_ids_union (f1 f2 : option string) (l1 l2 : Z)
    (p1 p2 : bool) (w1 w1' w2 w2' : world) (d1 d2 : Dict.dict) :
  get_skip_ids f1 l1 p1 w1 = (Returned d1, w1') ->
  get_skip_ids f2 l2 p2 w2 = (Returned d2, w2') ->
  forall w,
  exists merged,
    merge_skip_ids d1 d2 w = (Returned merged, w)
    /\ forall k,
         In k (Dict.keys merged)
         <-> In k (Dict.keys d1) \/ In k (Dict.keys d2).
Proof.
  intros H1 H2 w.
  apply get_skip_ids_returned in H1 as [t1 ->].
  apply get_skip_ids_returned in H2 as [t2 ->].
  rewrite merge_skip_ids_of_scans. eexists. split; [reflexivity |].
  intros k. rewrite <- !contains_keys, contains_merged.
  apply orb_true_iff.
Qed.

Lemma merge_skip_ids_union_witness :
  exists merged,
    merge_skip_ids [("@r1", true)] [("@r2", true)] (World (disk []) [])
    = (Returned merged, World (disk []) [])
    /\ forall k,
         In k (Dict.keys merged)
         <-> In k (Dict.keys [("@r1", true)])
             \/ In k (Dict.keys [("@r2", true)]).
Proof.
  apply (merge_skip_ids_union (Some "f.fastq") (Some "r.fastq") 25 25 true
           true
           (World (disk [("f.fastq", fastq_text [example_read "@r1/1" 10])])
              [])
           (World (disk [("f.fastq", fastq_text [example_read "@r1/1" 10])])
              [ReadingInputFile (Some "f.fastq"); ReadsEvaluated 1])
           (World (disk [("r.fastq", fastq_text [example_read "@r2/2" 10])])
              [])
           (World (disk [("r.fastq", fastq_text [example_read "@r2/2" 10])])
              [ReadingInputFile (Some "r.fastq"); ReadsEvaluated 1]));
    reflexivity.
Defined.

(** C8: when no record of the input is as short as the threshold, [main]
    returns 0 and leaves every file as it was, so that no output file is
    created or written, and it prints the message that no read was found to
    filter.  This holds with one input file as with two. *)
Theorem main_no_short_read (a : Args.t) (w : world) (F R : string)
    (rf rr : list fastq_record) :
  Args.accepted a = true ->
  Args.forwardreads a = Some F ->
  files w F = Some (fastq_text rf) ->
  forallb well_formed rf = true ->
  (forall r, In r rf -> (Args.length a < sequence_length r)%Z) ->
  (split_files a = true ->
   Args.reversereads a = Some R /\ files w R = Some (fastq_text rr)) ->
  forallb well_formed rr = true ->
  (forall r, In r rr -> (Args.length a < sequence_length r)%Z) ->
  exists ms,
    main a w
    = (Returned 0%Z,
       World (files w)
         (stdout w ++ ms ++ [NoReadsFound (Args.length a); Done])).
Proof.
  intros Hacc HF HwF Hwf1 Hlong1 Hsplit Hwf2 Hlong2.
  destruct (split_files a) eqn:S.
  - destruct (accepted_two_files a Hacc S) as [Hp Ht].
    destruct (Hsplit eq_refl) as [HR HwR].
    destruct (main_two_files a w F R _ _ S Ht HF HR HwF HwR)
      as (w' & Hmain & Hcase).
    rewrite !skip_of_none_short in Hcase by assumption.
    cbn [merged_skip_ids dict_update fold_left Dict.empty Dict.is_empty]
      in Hcase.
    destruct Hcase as [ms ->]. now exists ms.
  - pose proof (accepted_one_file a Hacc S) as Hr.
    destruct (main_one_file a w F _ S Hr HF HwF) as (w' & Hmain & Hcase).
    rewrite skip_of_none_short in Hcase by assumption.
    cbn [Dict.empty Dict.is_empty] in Hcase.
    destruct Hcase as [ms ->]. now exists ms.
Qed.

Lemma main_no_short_read_witness :
  exists ms,
    main (Args.Make false true false (Some "f.fastq") (Some "r.fastq")
            "out.fastq" 25)
      (World (disk [("f.fastq", fastq_text [example_read "@r1/1" 30]);
                    ("r.fastq", fastq_text [example_read "@r1/2" 40])]) [])
    = (Returned 0%Z,
       World
         (disk [("f.fastq", fastq_text [example_read "@r1/1" 30]);
                ("r.fastq", fastq_text [example_read "@r1/2" 40])])
         ([] ++ ms ++ [NoReadsFound 25; Done])).
Proof.
  apply (main_no_short_read
           (Args.Make false true false (Some "f.fastq") (Some "r.fastq")
              "out.fastq" 25)
           (World (disk [("f.fastq", fastq_text [example_read "@r1/1" 30]);
                         ("r.fastq", fastq_text [example_read "@r1/2" 40])])
              [])
           "f.fastq" "r.fastq" [example_read "@r1/1" 30]
           [example_read "@r1/2" 40]).
  - reflexivity.
  - reflexivity.
  - reflexivity.
  - reflexivity.
  - intros r [<- | []]. reflexivity.
  - intros _. split; reflexivity.
  - reflexivity.
  - intros r [<- | []]. reflexivity.
Defined.

(** C5, as the code has it: for a file of one record or more, well formed
    (headers that start with [@], lines with no white space at their end)
    and not the file written, [write_filtered_output] writes the records
    whose identifier is not in the dictionary, each as its four lines ended
    by a line feed, in the order of the input. *)
Theorem write_filtered_output_keeps_records (skip_ids : Dict.dict)
    (outputfile path : string) (paired : bool)
    (read_direction : option string) (w : world)
    (rs : list fastq_record) :
  files w path = Some (fastq_text rs) ->
  path <> output_name outputfile read_direction ->
  forallb well_formed rs = true ->
  rs <> [] ->
  exists w',
    write_filtered_output skip_ids outputfile (Some path) paired
      read_direction w
    = (Returned (output_name outputfile read_direction), w')
    /\ files w' (output_name outputfile read_direction)
       = Some (fastq_text
                 (filter
                    (fun r =>
                       negb (Dict.contains (read_id paired r) skip_ids))
                    rs)).
Proof.
  intros H Hne Hwf Hrs.
  destruct (write_filtered_output_run skip_ids outputfile path paired
              read_direction w _ H) as (w' & Hrun & Hfiles).
  exists w'. split; [exact Hrun |].
  rewrite Hfiles, String.eqb_refl. apply String.eqb_neq in Hne.
  rewrite Hne, written_fastq_text by exact Hwf.
  destruct rs; [easy | reflexivity].
Qed.

Lemma write_filtered_output_keeps_records_witness :
  exists w',
    write_filtered_output [("@r1", true)] "out.fastq" (Some "in.fastq") false
      None
      (World
         (disk [("in.fastq",
                 fastq_text [example_read "@r1" 3; example_read "@r2" 4])])
         [])
    = (Returned (output_name "out.fastq" None), w')
    /\ files w' (output_name "out.fastq" None)
       = Some (fastq_text
                 (filter
                    (fun r =>
                       negb (Dict.contains (read_id false r)
                               [("@r1", true)]))
                    [example_read "@r1" 3; example_read "@r2" 4])).
Proof.
  apply (write_filtered_output_keeps_records [("@r1", true)] "out.fastq"
           "in.fastq" false None
           (World
              (disk [("in.fastq",
                      fastq_text
                        [example_read "@r1" 3; example_read "@r2" 4])])
              [])
           [example_read "@r1" 3; example_read "@r2" 4]).
  - reflexivity.
  - intros E. vm_compute in E. discriminate E.
  - reflexivity.
  - discriminate.
Defined.

(** C5, as the specification states it, fails: a header with a blank at its
    end is written without the blank, so the record does not come out as it
    went in, and the file written is not the file read although nothing is
    to be skipped. *)
Lemma write_filtered_output_strips_lines :
  let run :=
    write_filtered_output Dict.empty "out.fastq" (Some "in.fastq") false None
      (World
         (disk [("in.fastq",
                 "@r1 " +++ NL +++ "ACGT" +++ NL +++ "+" +++ NL
                 +++ "IIII" +++ NL)])
         []) in
  fst run = Returned "out.fastq"
  /\ files (snd run) "out.fastq"
     = Some ("@r1" +++ NL +++ "ACGT" +++ NL +++ "+" +++ NL
             +++ "IIII" +++ NL)
  /\ files (snd run) "out.fastq" <> files (snd run) "in.fastq".
Proof.
  repeat split; try (vm_compute; reflexivity).
  vm_compute. discriminate.
Qed.

(** C4, as the code has it.  In single-end mode, for a well-formed input
    that is not the output file, [main] returns 0.  Where every record is
    longer than the threshold it changes no file: no output is written.
    Where some record is as short as the threshold, the output file holds,
    in the order of the input, exactly the records that share their
    identifier with no record as short as the threshold; where the
    identifiers are all different these are the records whose sequence is
    longer than the threshold, and longer than 25 where no length was given
    to the parser. *)
Theorem main_single_end_threshold (a : Args.t) (w : world) (F : string)
    (rs : list fastq_record) (given : option Z) :
  Args.accepted a = true ->
  Args.singleend a = true ->
  Args.length a = Args.parsed_length given ->
  Args.forwardreads a = Some F ->
  files w F = Some (fastq_text rs) ->
  F <> Args.outputfile a ->
  forallb well_formed rs = true ->
  exists w' : world,
    main a w = (Returned 0%Z, w')
    /\ ((forall r, In r rs -> (Args.length a < sequence_length r)%Z) ->
        files w' = files w)
    /\ ((exists r, In r rs /\ (sequence_length r <= Args.length a)%Z) ->
        files w' (Args.outputfile a)
        = Some (fastq_text
                  (filter
                     (fun r =>
                        negb (existsb
                                (fun r' =>
                                   (sequence_length r' <=? Args.length a)%Z
                                   && String.eqb (read_id false r)
                                        (read_id false r'))
                                rs))
                     rs))
        /\ (NoDup (map (read_id false) rs) ->
            files w' (Args.outputfile a)
            = Some (fastq_text
                      (filter
                         (fun r => (Args.length a <? sequence_length r)%Z)
                         rs)))
        /\ (NoDup (map (read_id false) rs) ->
            given = None ->
            files w' (Args.outputfile a)
            = Some (fastq_text
                      (filter (fun r => (25 <? sequence_length r)%Z) rs)))).
Proof.
  intros Hacc Hse Hlen HF Hw Hne Hwf.
  assert (Hp : Args.pairedend a = false).
  { unfold Args.accepted in Hacc. rewrite Hse in Hacc.
    destruct (Args.pairedend a); [| reflexivity].
    cbn in Hacc. rewrite !andb_false_r in Hacc. discriminate. }
  assert (S : split_files a = false) by (unfold split_files; now rewrite Hp).
  pose proof (accepted_one_file a Hacc S) as Hr.
  destruct (main_one_file a w F _ S Hr HF Hw) as (w' & Hmain & Hcase).
  rewrite Hp in Hcase. rewrite skip_of_fastq_text in Hcase by exact Hwf.
  exists w'. split; [exact Hmain |]. split.
  - intros Hlong.
    rewrite skip_records_none_short in Hcase.
    + cbn [Dict.empty Dict.is_empty] in Hcase.
      destruct Hcase as [ms ->]. reflexivity.
    + intros r Hr'. unfold is_short. apply Z.leb_gt. now apply Hlong.
  - intros (r0 & Hin0 & Hshort0).
    assert (Hc : Dict.contains (read_id false r0)
                   (skip_records (Args.length a) false rs Dict.empty)
                 = true).
    { apply contains_short_record; [exact Hin0 |].
      unfold is_short. now apply Z.leb_le. }
    rewrite (contains_not_empty _ _ Hc) in Hcase.
    assert (Hout : files w' (Args.outputfile a)
                   = Some (fastq_text
                             (kept
                                (skip_records (Args.length a) false rs
                                   Dict.empty)
                                false rs))).
    { rewrite Hcase, String.eqb_refl. apply String.eqb_neq in Hne.
      rewrite Hne, written_fastq_text by exact Hwf.
      destruct rs; [easy | reflexivity]. }
    split; [| split].
    + rewrite Hout. do 2 f_equal. unfold kept. apply filter_ext.
      intros r. now rewrite contains_skip_records.
    + intros Hnd. now rewrite Hout, kept_distinct_ids.
    + intros Hnd ->. rewrite Hout, kept_distinct_ids by exact Hnd.
      now rewrite Hlen.
Qed.

Lemma main_single_end_threshold_witness :
  exists w' : world,
    main (Args.Make true false false (Some "in.fastq") None "out.fastq" 25)
      (World
         (disk [("in.fastq",
                 fastq_text [example_read "@r1" 25; example_read "@r2" 26])])
         [])
    = (Returned 0%Z, w')
    /\ ((forall r,
           In r [example_read "@r1" 25; example_read "@r2" 26] ->
           (25 < sequence_length r)%Z) ->
        files w'
        = files
            (World
               (disk [("in.fastq",
                       fastq_text
                         [example_read "@r1" 25; example_read "@r2" 26])])
               []))
    /\ ((exists r,
           In r [example_read "@r1" 25; example_read "@r2" 26]
           /\ (sequence_length r <= 25)%Z) ->
        files w' "out.fastq"
        = Some (fastq_text
                  (filter
                     (fun r =>
                        negb (existsb
                                (fun r' =>
                                   (sequence_length r' <=? 25)%Z
                                   && String.eqb (read_id false r)
                                        (read_id false r'))
                                [example_read "@r1" 25;
                                 example_read "@r2" 26]))
                     [example_read "@r1" 25; example_read "@r2" 26]))
        /\ (NoDup (map (read_id false)
                     [example_read "@r1" 25; example_read "@r2" 26]) ->
            files w' "out.fastq"
            = Some (fastq_text
                      (filter (fun r => (25 <? sequence_length r)%Z)
                         [example_read "@r1" 25; example_read "@r2" 26])))
        /\ (NoDup (map (read_id false)
                     [example_read "@r1" 25; example_read "@r2" 26]) ->
            @None Z = None ->
            files w' "out.fastq"
            = Some (fastq_text
                      (filter (fun r => (25 <? sequence_length r)%Z)
                         [example_read "@r1" 25; example_read "@r2" 26])))).
Proof.
  apply (main_single_end_threshold
           (Args.Make true false false (Some "in.fastq") None "out.fastq" 25)
           (World
              (disk [("in.fastq",
                      fastq_text
                        [example_read "@r1" 25; example_read "@r2" 26])])
              [])
           "in.fastq" [example_read "@r1" 25; example_read "@r2" 26] None).
  - reflexivity.
  - reflexivity.
  - reflexivity.
  - reflexivity.
  - reflexivity.
  - intros E. vm_compute in E. discriminate E.
  - reflexivity.
Defined.

(** C4, as the specification states it, fails: with the threshold at 25 a
    single-end input whose one record has 30 bases leaves no output file at
    all, so the record is in no output although its sequence is longer than
    the threshold. *)
Lemma main_single_end_long_read_not_written :
  let run :=
    main (Args.Make true false false (Some "in.fastq") None "out.fastq"
            Args.default_len)
      (World (disk [("in.fastq", fastq_text [example_read "@r1" 30])]) []) in
  fst run = Returned 0%Z
  /\ files (snd run) "out.fastq" = None
  /\ (Args.default_len < sequence_length (example_read "@r1" 30))%Z.
Proof. repeat split; vm_compute; reflexivity. Qed.



(** ** A second run on what a first run wrote *)

Lemma skip_of_written_records (skip_len : Z) (paired : bool)
    (skip_ids : Dict.dict) (rs : list fastq_record) :
  forallb well_formed rs = true ->
  (forall r, In r rs -> is_short skip_len r = true ->
             Dict.contains (read_id paired r) skip_ids = true) ->
  skip_of skip_len paired (written_records skip_ids paired rs) = Dict.empty.
Proof.
  intros Hwf H. destruct rs as [| r rs]; [reflexivity |].
  unfold written_records.
  rewrite skip_of_fastq_text by now apply kept_well_formed.
  apply skip_records_kept with (all := r :: rs); auto.
Qed.

Lemma rerun_on_output (skip_len : Z) (paired : bool) (skip_ids : Dict.dict)
    (rs : list fastq_record) (w1 : world) (N : string) :
  forallb well_formed rs = true ->
  (forall r, In r rs -> is_short skip_len r = true ->
             Dict.contains (read_id paired r) skip_ids = true) ->
  files w1 N = Some (written_records skip_ids paired rs) ->
  (exists w2,
     get_skip_ids (Some N) skip_len paired w1 = (Returned Dict.empty, w2))
  /\ forall text,
       files w1 N = Some text ->
       text <> "" ->
       forall outputfile read_direction,
         N <> output_name outputfile read_direction ->
         exists w2,
           write_filtered_output Dict.empty outputfile (Some N) paired
             read_direction w1
           = (Returned (output_name outputfile read_direction), w2)
           /\ files w2 (output_name outputfile read_direction) = Some text.
Proof.
  intros Hwf Hall HN. split.
  - destruct (get_skip_ids_run N skip_len paired w1 _ HN) as [ms Hrun].
    eexists. rewrite Hrun.
    now rewrite skip_of_written_records.
  - intros text Htext Hne outputfile read_direction Hname.
    destruct (write_filtered_output_run Dict.empty outputfile N paired
                read_direction w1 _ HN) as (w2 & Hrun & Hfiles).
    exists w2. split; [exact Hrun |].
    rewrite Hfiles, String.eqb_refl. apply String.eqb_neq in Hname.
    rewrite Hname. rewrite HN in Htext. inversion Htext as [E]. f_equal.
    destruct rs as [| r rs]; [reflexivity |].
    unfold written_records in *.
    destruct (kept skip_ids paired (r :: rs)) as [| k ks] eqn:K;
      [now subst text |].
    rewrite written_fastq_text.
    + unfold written_records. now rewrite kept_all.
    + rewrite <- K. now apply kept_well_formed.
Qed.

(** C9, as the code has it.  A first run on well-formed input that holds a
    record as short as the threshold returns 0 and writes its output.  A
    second run in the same mode and with the same threshold on that output
    returns 0, leaves every file as it is and prints that no read was found
    to filter: [get_skip_ids] returns the empty dictionary for every file
    the first run wrote.  With that empty dictionary
    [write_filtered_output] would write a file of the first run again as it
    is, if the file is not empty. *)
Theorem main_rerun_filters_nothing (a : Args.t) (w : world) (F R : string)
    (rf rr : list fastq_record) (outputfile2 : string) :
  Args.accepted a = true ->
  Args.forwardreads a = Some F ->
  files w F = Some (fastq_text rf) ->
  forallb well_formed rf = true ->
  (if split_files a
   then Args.reversereads a = Some R
        /\ files w R = Some (fastq_text rr)
        /\ F <> output_name (Args.outputfile a) (Some "R1")
        /\ R <> output_name (Args.outputfile a) (Some "R1")
        /\ R <> output_name (Args.outputfile a) (Some "R2")
   else rr = [] /\ F <> Args.outputfile a) ->
  forallb well_formed rr = true ->
  (exists r, (In r rf \/ In r rr)
             /\ (sequence_length r <= Args.length a)%Z) ->
  exists (w1 : world) (ms : list message),
    main a w = (Returned 0%Z, w1)
    /\ main (rerun_args a outputfile2) w1
       = (Returned 0%Z,
          World (files w1)
            (stdout w1 ++ ms ++ [NoReadsFound (Args.length a); Done]))
    /\ forall N,
         In N (outputs a) ->
         (exists w2,
            get_skip_ids (Some N) (Args.length a) (Args.pairedend a) w1
            = (Returned Dict.empty, w2))
         /\ forall text,
              files w1 N = Some text ->
              text <> "" ->
              forall outputfile read_direction,
                N <> output_name outputfile read_direction ->
                exists w2,
                  write_filtered_output Dict.empty outputfile (Some N)
                    (Args.pairedend a) read_direction w1
                  = (Returned (output_name outputfile read_direction), w2)
                  /\ files w2 (output_name outputfile read_direction)
                     = Some text.
Proof.
  intros Hacc HF HwF Hwf1 Hmode Hwf2 (r0 & Hin0 & Hshort0).
  apply Z.leb_le in Hshort0. fold (is_short (Args.length a) r0) in Hshort0.
  unfold rerun_args, outputs. destruct (split_files a) eqn:S.
  - destruct Hmode as (HR & HwR & HF1 & HR1 & HR2).
    destruct (accepted_two_files a Hacc S) as [Hp Ht].
    destruct (main_two_files a w F R _ _ S Ht HF HR HwF HwR)
      as (w1 & Hmain & Hcase).
    rewrite !skip_of_fastq_text in Hcase by assumption.
    set (skip_ids :=
           merged_skip_ids (skip_records (Args.length a) true rf Dict.empty)
             (skip_records (Args.length a) true rr Dict.empty)) in *.
    assert (Hall : forall r, In r rf \/ In r rr ->
                     is_short (Args.length a) r = true ->
                     Dict.contains (read_id true r) skip_ids = true).
    { intros r Hin Hs. unfold skip_ids. rewrite contains_merged.
      apply orb_true_iff.
      destruct Hin as [Hin | Hin]; [left | right];
        now apply contains_short_record. }
    rewrite (contains_not_empty _ _ (Hall r0 Hin0 Hshort0)) in Hcase.
    specialize (Hcase HF1 HR1 HR2).
    assert (H1 : files w1 (output_name (Args.outputfile a) (Some "R1"))
                 = Some (written_records skip_ids true rf)).
    { rewrite Hcase.
      destruct (String.eqb_spec
                  (output_name (Args.outputfile a) (Some "R1"))
                  (output_name (Args.outputfile a) (Some "R2"))) as [E | _];
        [now apply output_name_mates_differ in E |].
      now rewrite String.eqb_refl, written_fastq_text. }
    assert (H2 : files w1 (output_name (Args.outputfile a) (Some "R2"))
                 = Some (written_records skip_ids true rr)).
    { now rewrite Hcase, String.eqb_refl, written_fastq_text. }
    set (a2 := Args.Make _ _ _ _ _ _ _).
    assert (S2 : split_files a2 = true) by exact S.
    destruct (main_two_files a2 w1 _ _ _ _ S2
                (output_name_truthy (Args.outputfile a) "R2")
                eq_refl eq_refl H1 H2) as (w2 & Hmain2 & Hcase2).
    cbn [a2 Args.length] in Hcase2.
    rewrite !skip_of_written_records in Hcase2 by auto.
    cbn [merged_skip_ids dict_update fold_left Dict.empty Dict.is_empty]
      in Hcase2.
    destruct Hcase2 as [ms ->].
    exists w1, ms. split; [exact Hmain |]. split; [exact Hmain2 |].
    rewrite Hp. intros N [<- | [<- | []]].
    + apply (rerun_on_output _ _ skip_ids rf); auto.
    + apply (rerun_on_output _ _ skip_ids rr); auto.
  - destruct Hmode as (-> & Hne).
    destruct Hin0 as [Hin0 | []].
    pose proof (accepted_one_file a Hacc S) as Hr.
    destruct (main_one_file a w F _ S Hr HF HwF) as (w1 & Hmain & Hcase).
    rewrite skip_of_fastq_text in Hcase by assumption.
    set (skip_ids :=
           skip_records (Args.length a) (Args.pairedend a) rf Dict.empty)
      in *.
    assert (Hall : forall r, In r rf ->
                     is_short (Args.length a) r = true ->
                     Dict.contains (read_id (Args.pairedend a) r) skip_ids
                     = true).
    { intros r Hin Hs. now apply contains_short_record. }
    rewrite (contains_not_empty _ _ (Hall r0 Hin0 Hshort0)) in Hcase.
    assert (H1 : files w1 (Args.outputfile a)
                 = Some (written_records skip_ids (Args.pairedend a) rf)).
    { rewrite Hcase, String.eqb_refl. apply String.eqb_neq in Hne.
      now rewrite Hne, written_fastq_text. }
    set (a2 := Args.Make _ _ _ _ _ _ _).
    assert (S2 : split_files a2 = false) by exact S.
    assert (Hr2 : Args.pairedend a2 && Args.truthy (Args.reversereads a2)
                  = false) by exact Hr.
    destruct (main_one_file a2 w1 _ _ S2 Hr2 eq_refl H1)
      as (w2 & Hmain2 & Hcase2).
    cbn [a2 Args.length Args.pairedend] in Hcase2.
    rewrite skip_of_written_records in Hcase2 by auto.
    cbn [Dict.empty Dict.is_empty] in Hcase2.
    destruct Hcase2 as [ms ->].
    exists w1, ms. split; [exact Hmain |]. split; [exact Hmain2 |].
    intros N [<- | []].
    apply (rerun_on_output _ _ skip_ids rf); auto.
Qed.

Lemma main_rerun_filters_nothing_witness :
  exists (w1 : world) (ms : list message),
    main (Args.Make false true false (Some "f.fastq") (Some "r.fastq")
            "out.fastq" 25)
      (World
         (disk [("f.fastq",
                 fastq_text [example_read "@r1/1" 10; example_read "@r2/1" 30]);
                ("r.fastq",
                 fastq_text [example_read "@r1/2" 40; example_read "@r2/2" 30])])
         [])
    = (Returned 0%Z, w1)
    /\ main (rerun_args
               (Args.Make false true false (Some "f.fastq") (Some "r.fastq")
                  "out.fastq" 25)
               "again.fastq")
         w1
       = (Returned 0%Z,
          World (files w1) (stdout w1 ++ ms ++ [NoReadsFound 25; Done]))
    /\ forall N,
         In N (outputs
                 (Args.Make false true false (Some "f.fastq")
                    (Some "r.fastq") "out.fastq" 25)) ->
         (exists w2,
            get_skip_ids (Some N) 25 true w1 = (Returned Dict.empty, w2))
         /\ forall text,
              files w1 N = Some text ->
              text <> "" ->
              forall outputfile read_direction,
                N <> output_name outputfile read_direction ->
                exists w2,
                  write_filtered_output Dict.empty outputfile (Some N) true
                    read_direction w1
                  = (Returned (output_name outputfile read_direction), w2)
                  /\ files w2 (output_name outputfile read_direction)
                     = Some text.
Proof.
  apply (main_rerun_filters_nothing
           (Args.Make false true false (Some "f.fastq") (Some "r.fastq")
              "out.fastq" 25)
           (World
              (disk [("f.fastq",
                      fastq_text
                        [example_read "@r1/1" 10; example_read "@r2/1" 30]);
                     ("r.fastq",
                      fastq_text
                        [example_read "@r1/2" 40; example_read "@r2/2" 30])])
              [])
           "f.fastq" "r.fastq"
           [example_read "@r1/1" 10; example_read "@r2/1" 30]
           [example_read "@r1/2" 40; example_read "@r2/2" 30]
           "again.fastq").
  - reflexivity.
  - reflexivity.
  - reflexivity.
  - reflexivity.
  - refine (conj eq_refl (conj eq_refl (conj _ (conj _ _))));
      intros E; vm_compute in E; discriminate E.
  - reflexivity.
  - exists (example_read "@r1/1" 10). split; [left; now left |].
    vm_compute. discriminate.
Defined.

(** C9, as the specification states it, fails where the first run drops
    every read.  The file it writes is empty; the second run finds nothing
    to skip, and with that empty dictionary [write_filtered_output] makes
    of the empty file a file of one line feed: the filtered content is not
    written again as it is. *)
Lemma rerun_does_not_reproduce_empty_output :
  let run1 :=
    main (Args.Make true false false (Some "in.fastq") None "out.fastq" 25)
      (World (disk [("in.fastq", fastq_text [example_read "@r1" 10])]) []) in
  let scan2 := get_skip_ids (Some "out.fastq") 25 false (snd run1) in
  let write2 :=
    write_filtered_output Dict.empty "again.fastq" (Some "out.fastq") false
      None (snd run1) in
  fst run1 = Returned 0%Z
  /\ files (snd run1) "out.fastq" = Some ""
  /\ fst scan2 = Returned Dict.empty
  /\ fst write2 = Returned "again.fastq"
  /\ files (snd write2) "again.fastq" = Some NL
  /\ files (snd write2) "again.fastq" <> files (snd run1) "out.fastq".
Proof.
  repeat split; try (vm_compute; reflexivity).
  vm_compute. discriminate.
Qed.

(** * Further properties of the functions *)

(** ** parse_read_id *)

Lemma dots_dollar_no_line_feed (s : string) :
  Str.contains Str.LF s = false -> Re.dots_dollar s = true.
Proof.
  induction s as [| c s IH]; cbn [Str.contains Re.dots_dollar];
    [reflexivity |].
  intros H. apply orb_false_iff in H as [H1 H2].
  rewrite Ascii.eqb_sym, H1. now apply IH.
Qed.

Lemma after_dollar_no_line_feed (s : string) :
  Str.contains Str.LF s = false -> Re.after_dollar s = "".
Proof.
  induction s as [| c s IH]; cbn [Str.contains Re.after_dollar];
    [reflexivity |].
  intros H. apply orb_false_iff in H as [H1 H2].
  rewrite Ascii.eqb_sym, H1. now apply IH.
Qed.

Lemma sub_annotation_no_blank (s : string) :
  no_blank s = true -> Re.sub_annotation s = s.
Proof.
  unfold no_blank.
  induction s as [| c s IH]; cbn [every Re.sub_annotation]; [reflexivity |].
  intros H. apply andb_prop in H as [H1 H2].
  apply negb_true_iff in H1. rewrite H1. cbn [andb]. now rewrite IH.
Qed.

Lemma sub_annotation_cut (id rest : string) (b : ascii) :
  no_blank id = true -> Re.is_blank b = true ->
  Str.contains Str.LF rest = false ->
  Re.sub_annotation (id +++ String b rest) = id.
Proof.
  unfold no_blank. intros Hid Hb Hrest.
  induction id as [| c id IH]; cbn [every String.append Re.sub_annotation].
  - rewrite Hb, dots_dollar_no_line_feed by exact Hrest. cbn [andb].
    now apply after_dollar_no_line_feed.
  - cbn [every] in Hid. apply andb_prop in Hid as [H1 H2].
    apply negb_true_iff in H1. rewrite H1. cbn [andb]. now rewrite IH.
Qed.

(** X1.  With the paired-end flag off, the identifier of a header is the
    header up to its first space or tabulator; a header with neither is
    its own identifier. *)
Theorem parse_read_id_single_end (id rest : string) (b : ascii) :
  no_blank id = true ->
  Re.is_blank b = true ->
  Str.contains Str.LF rest = false ->
  parse_read_id (id +++ String b rest) false = id
  /\ parse_read_id id false = id.
Proof.
  intros Hid Hb Hrest. unfold parse_read_id. split.
  - now apply sub_annotation_cut.
  - now apply sub_annotation_no_blank.
Qed.

Lemma parse_read_id_single_end_witness :
  parse_read_id ("@SRR1.7" +++ String " " "length=150") false = "@SRR1.7"
  /\ parse_read_id "@SRR1.7" false = "@SRR1.7".
Proof.
  apply (parse_read_id_single_end "@SRR1.7" "length=150" " "); reflexivity.
Defined.

(** X2.  In either mode, what stands behind the first space or tabulator
    of a header has no part in its identifier. *)
Theorem parse_read_id_ignores_annotation (id rest : string) (b : ascii)
    (paired : bool) :
  no_blank id = true ->
  Re.is_blank b = true ->
  Str.contains Str.LF rest = false ->
  parse_read_id (id +++ String b rest) paired = parse_read_id id paired.
Proof.
  intros Hid Hb Hrest. unfold parse_read_id.
  now rewrite sub_annotation_cut, sub_annotation_no_blank.
Qed.

Lemma parse_read_id_ignores_annotation_witness :
  parse_read_id ("@frag/1" +++ String Str.TAB "1:N:0") true
  = parse_read_id "@frag/1" true.
Proof.
  apply (parse_read_id_ignores_annotation "@frag/1" "1:N:0" Str.TAB true);
    reflexivity.
Defined.

Lemma separator_facts (c : ascii) :
  Re.is_separator c = true ->
  Re.is_mate_marker c = false /\ Ascii.eqb c "'" = false
  /\ Re.is_blank c = false.
Proof.
  destruct c as [[] [] [] [] [] [] [] []]; vm_compute;
    intuition congruence.
Qed.

Lemma mate_marker_facts (c : ascii) :
  Re.is_mate_marker c = true ->
  Ascii.eqb c Str.LF = false /\ Ascii.eqb "."%char c = false
  /\ Re.is_blank c = false.
Proof.
  destruct c as [[] [] [] [] [] [] [] []]; vm_compute;
    intuition congruence.
Qed.

Lemma every_app (p : ascii -> bool) (s t : string) :
  every p (s +++ t) = every p s && every p t.
Proof.
  induction s as [| c s IH]; cbn [String.append every]; [reflexivity |].
  now rewrite IH, andb_assoc.
Qed.

Lemma contains_app (c : ascii) (s t : string) :
  Str.contains c (s +++ t) = Str.contains c s || Str.contains c t.
Proof.
  induction s as [| d s IH]; cbn [String.append Str.contains];
    [reflexivity |].
  now rewrite IH, orb_assoc.
Qed.

Lemma remove_last_dot_none (s : string) :
  Str.contains "."%char s = false -> Str.remove_last_dot s = s.
Proof.
  induction s as [| c s IH]; cbn [Str.contains Str.remove_last_dot];
    [reflexivity |].
  intros H. apply orb_false_iff in H as [H1 H2].
  rewrite Ascii.eqb_sym, H1. cbn [andb]. now rewrite IH.
Qed.

Lemma remove_last_dot_app (s t : string) :
  Str.contains "."%char t = false ->
  Str.remove_last_dot (s +++ t) = Str.remove_last_dot s +++ t.
Proof.
  intros Ht.
  induction s as [| c s IH]; cbn [String.append Str.remove_last_dot].
  - now apply remove_last_dot_none.
  - rewrite contains_app, Ht, orb_false_r.
    destruct (Ascii.eqb c "." && negb (Str.contains "." s));
      [reflexivity |].
    cbn [String.append]. now rewrite IH.
Qed.

Lemma quotes_dollar_before_mate (t : string) (sep m : ascii) :
  Ascii.eqb sep "'" = false ->
  Re.quotes_dollar (t +++ String sep (String m "")) = false.
Proof.
  intros Hsep.
  induction t as [| c t IH]; cbn [String.append Re.quotes_dollar].
  - now rewrite Hsep.
  - destruct (Ascii.eqb c "'"); [exact IH |].
    cbn [Re.at_dollar]. destruct t; reflexivity.
Qed.

Lemma sub_mate_suffix_mate (x : string) (sep m : ascii) :
  Re.is_separator sep = true -> Re.is_mate_marker m = true ->
  Re.sub_mate_suffix (x +++ String sep (String m "")) = x.
Proof.
  intros Hsep Hm.
  destruct (separator_facts sep Hsep) as (Hs1 & Hs2 & _).
  destruct (mate_marker_facts m Hm) as (Hm1 & _).
  induction x as [| c x IH].
  - cbn [String.append Re.sub_mate_suffix Re.mate_suffix_here
           Re.quotes_dollar Re.after_dollar].
    now rewrite Hsep, Hm, Hm1.
  - cbn [String.append Re.sub_mate_suffix].
    assert (H : Re.mate_suffix_here
                  (String c (x +++ String sep (String m ""))) = false).
    { destruct x as [| y x]; cbn [String.append Re.mate_suffix_here].
      - now rewrite Hs1, andb_false_r.
      - now rewrite quotes_dollar_before_mate, andb_false_r. }
    rewrite H. now rewrite IH.
Qed.

(** X3.  With the paired-end flag on, a header made of a stem without
    space or tabulator, a separator other than the full stop and one mate
    marker has the stem, less its last full stop, as its identifier: the
    forward and the reverse header of such a fragment get one and the same
    identifier. *)
Theorem parse_read_id_mates_agree (stem : string) (sep m1 m2 : ascii) :
  no_blank stem = true ->
  Re.is_separator sep = true ->
  sep <> "."%char ->
  Re.is_mate_marker m1 = true ->
  Re.is_mate_marker m2 = true ->
  parse_read_id (stem +++ String sep (String m1 "")) true
  = Str.remove_last_dot stem
  /\ parse_read_id (stem +++ String sep (String m2 "")) true
     = Str.remove_last_dot stem.
Proof.
  intros Hstem Hsep Hdot H1 H2.
  assert (H : forall m, Re.is_mate_marker m = true ->
                parse_read_id (stem +++ String sep (String m "")) true
                = Str.remove_last_dot stem).
  { intros m Hm. unfold parse_read_id.
    destruct (separator_facts sep Hsep) as (_ & _ & Hb).
    destruct (mate_marker_facts m Hm) as (_ & Hd & Hbm).
    rewrite sub_annotation_no_blank.
    - rewrite remove_last_dot_app.
      + now apply sub_mate_suffix_mate.
      + cbn [Str.contains]. rewrite Hd.
        apply Ascii.eqb_neq in Hdot. rewrite Ascii.eqb_sym in Hdot.
        now rewrite Hdot.
    - unfold no_blank in *. rewrite every_app, Hstem. cbn [every andb].
      now rewrite Hb, Hbm. }
  split; now apply H.
Qed.

Lemma parse_read_id_mates_agree_witness :
  parse_read_id ("@SIM.1" +++ String "/" (String "1" "")) true
  = Str.remove_last_dot "@SIM.1"
  /\ parse_read_id ("@SIM.1" +++ String "/" (String "2" "")) true
     = Str.remove_last_dot "@SIM.1".
Proof.
  apply (parse_read_id_mates_agree "@SIM.1" "/" "1" "2");
    try reflexivity.
  discriminate.
Defined.

(** ** get_skip_ids *)

(** X4.  [get_skip_ids] on no file name raises [AttributeError], on the
    name of a file that does not exist [FileNotFoundError]; either way it
    has printed which file it reads and has touched no file. *)
Theorem get_skip_ids_fails (skip_len : Z) (paired : bool) (w : world)
    (path : string) :
  files w path = None ->
  get_skip_ids None skip_len paired w
  = (Raised AttributeError,
     World (files w) (stdout w ++ [ReadingInputFile None]))
  /\ get_skip_ids (Some path) skip_len paired w
     = (Raised (FileNotFoundError path),
        World (files w) (stdout w ++ [ReadingInputFile (Some path)])).
Proof.
  intros H. split.
  - reflexivity.
  - unfold get_skip_ids, bind, print, require_path, ret, open_read.
    cbn [files stdout]. now rewrite H.
Qed.

Lemma get_skip_ids_fails_witness :
  get_skip_ids None 25 false (World (disk []) [])
  = (Raised AttributeError,
     World (files (World (disk []) []))
       (stdout (World (disk []) []) ++ [ReadingInputFile None]))
  /\ get_skip_ids (Some "in.fastq") 25 false (World (disk []) [])
     = (Raised (FileNotFoundError "in.fastq"),
        World (files (World (disk []) []))
          (stdout (World (disk []) [])
           ++ [ReadingInputFile (Some "in.fastq")])).
Proof.
  apply (get_skip_ids_fails 25 false (World (disk []) []) "in.fastq").
  reflexivity.
Defined.

(** X5.  Whatever the file holds, the dictionary [get_skip_ids] returns
    maps every key to [True] and has no key twice, and no file has
    changed. *)
Theorem get_skip_ids_returns_set (readsfile : option string) (skip_len : Z)
    (paired : bool) (w w' : world) (d : Dict.dict) :
  get_skip_ids readsfile skip_len paired w = (Returned d, w') ->
  (forall k v, Dict.get k d = Some v -> v = true)
  /\ NoDup (Dict.keys d)
  /\ files w' = files w.
Proof.
  intros H.
  destruct (get_skip_ids_returned _ _ _ _ _ _ H) as [text ->].
  destruct (skip_of_all_true skip_len paired text) as [H1 H2].
  repeat split; [exact H1 | exact H2 |].
  revert H. unfold get_skip_ids, bind, print, print_all, require_path, ret,
    raise, open_read.
  destruct readsfile as [path |]; cbn [files stdout]; [| discriminate].
  destruct (files w path); [| discriminate].
  cbn [files stdout]. intros H. now inversion H.
Qed.

Lemma get_skip_ids_returns_set_witness :
  (forall k v, Dict.get k [("@r1", true)] = Some v -> v = true)
  /\ NoDup (Dict.keys [("@r1", true)])
  /\ files
       (World (disk [("f.fastq", fastq_text [example_read "@r1/1" 10])])
          [ReadingInputFile (Some "f.fastq"); ReadsEvaluated 1])
     = files
         (World (disk [("f.fastq", fastq_text [example_read "@r1/1" 10])])
            []).
Proof.
  apply (get_skip_ids_returns_set (Some "f.fastq") 25 true).
  reflexivity.
Defined.

Lemma scan_group_monotone (l1 l2 : Z) (paired : bool) (g : list string)
    (d1 d2 : Dict.dict) :
  (l1 <= l2)%Z ->
  (forall k, Dict.contains k d1 = true -> Dict.contains k d2 = true) ->
  forall k,
    Dict.contains k (scan_group l1 paired d1 g) = true ->
    Dict.contains k (scan_group l2 paired d2 g) = true.
Proof.
  intros Hl Hd k. unfold scan_group.
  destruct g as [| h [| s g]]; try apply Hd.
  destruct (Str.startswith h "@"); cbn [andb]; [| apply Hd].
  destruct (Z.leb_spec (Z.of_nat (String.length s)) l1) as [H1 | H1].
  - assert (H2 : (Z.of_nat (String.length s) <=? l2)%Z = true)
      by (apply Z.leb_le; lia).
    rewrite H2, !contains_set. intros H.
    apply orb_true_iff in H as [H | H]; apply orb_true_iff;
      [now left | right; now apply Hd].
  - intros H. apply Hd in H.
    destruct (Z.of_nat (String.length s) <=? l2)%Z; [| exact H].
    rewrite contains_set. apply orb_true_iff. now right.
Qed.

(** X6.  Raising the threshold never takes an identifier out of the
    dictionary: what [get_skip_ids] marks at one length it marks at every
    greater length, whatever the file holds. *)
Theorem get_skip_ids_monotone (path : string) (l1 l2 : Z) (paired : bool)
    (w : world) (text : string) :
  files w path = Some text ->
  (l1 <= l2)%Z ->
  exists d1 d2 w1 w2,
    get_skip_ids (Some path) l1 paired w = (Returned d1, w1)
    /\ get_skip_ids (Some path) l2 paired w = (Returned d2, w2)
    /\ forall k, Dict.contains k d1 = true -> Dict.contains k d2 = true.
Proof.
  intros H Hl.
  destruct (get_skip_ids_run path l1 paired w text H) as [ms1 H1].
  destruct (get_skip_ids_run path l2 paired w text H) as [ms2 H2].
  do 4 eexists. split; [exact H1 |]. split; [exact H2 |].
  unfold skip_of. rewrite !scan_lines_groups.
  generalize (groups4 (map Str.rstrip (Str.readlines text))).
  assert (H0 : forall k, Dict.contains k Dict.empty = true ->
                 Dict.contains k Dict.empty = true) by auto.
  revert H0. generalize Dict.empty at 1 3. generalize Dict.empty.
  intros d2 d1 H0 gs. revert d1 d2 H0.
  induction gs as [| g gs IH]; intros d1 d2 H0; cbn [fold_left];
    [exact H0 |].
  apply IH. now apply scan_group_monotone.
Qed.

Lemma get_skip_ids_monotone_witness :
  exists d1 d2 w1 w2,
    get_skip_ids (Some "f.fastq") 5 false
      (World (disk [("f.fastq", fastq_text [example_read "@r1" 10])]) [])
    = (Returned d1, w1)
    /\ get_skip_ids (Some "f.fastq") 25 false
         (World (disk [("f.fastq", fastq_text [example_read "@r1" 10])]) [])
       = (Returned d2, w2)
    /\ forall k, Dict.contains k d1 = true -> Dict.contains k d2 = true.
Proof.
  apply (get_skip_ids_monotone "f.fastq" 5 25 false
           (World (disk [("f.fastq", fastq_text [example_read "@r1" 10])])
              [])
           (fastq_text [example_read "@r1" 10])).
  - reflexivity.
  - lia.
Defined.

(** X7.  [get_skip_ids] takes any text four lines at a time, each line
    stripped of the white space at its end: a group whose first line
    starts with [@] and whose second line is no longer than the threshold
    puts the identifier of its first line in the dictionary, and nothing
    else does.  A third or fourth line that starts with [@] is never taken
    for a header. *)
Theorem get_skip_ids_by_groups (path : string) (skip_len : Z) (paired : bool)
    (w : world) (text : string) :
  files w path = Some text ->
  exists w',
    get_skip_ids (Some path) skip_len paired w
    = (Returned
         (fold_left (scan_group skip_len paired)
            (groups4 (map Str.rstrip (Str.readlines text))) Dict.empty),
       w').
Proof.
  intros H.
  destruct (get_skip_ids_run path skip_len paired w text H) as [ms Hrun].
  eexists. rewrite Hrun. unfold skip_of. now rewrite scan_lines_groups.
Qed.

Lemma get_skip_ids_by_groups_witness :
  exists w',
    get_skip_ids (Some "f.fastq") 25 false
      (World (disk [("f.fastq", fastq_text [example_read "@r1" 10])]) [])
    = (Returned
         (fold_left (scan_group 25 false)
            (groups4
               (map Str.rstrip
                  (Str.readlines (fastq_text [example_read "@r1" 10]))))
            Dict.empty),
       w').
Proof.
  apply (get_skip_ids_by_groups "f.fastq" 25 false
           (World (disk [("f.fastq", fastq_text [example_read "@r1" 10])])
              [])
           (fastq_text [example_read "@r1" 10])).
  reflexivity.
Defined.

(** ** write_filtered_output *)

(** X8.  [write_filtered_output] takes any text four lines at a time, each
    line stripped of the white space at its end, and writes every group,
    its lines ended by a line feed, but those whose first line starts with
    [@] and has its identifier in the dictionary.  A group whose first line
    does not start with [@] is never left out, and a last group of fewer
    than four lines is written like a full one. *)
Theorem write_filtered_output_by_groups (skip_ids : Dict.dict)
    (outputfile path : string) (paired : bool)
    (read_direction : option string) (w : world) (text : string) :
  files w path = Some text ->
  path <> output_name outputfile read_direction ->
  exists w',
    write_filtered_output skip_ids outputfile (Some path) paired
      read_direction w
    = (Returned (output_name outputfile read_direction), w')
    /\ files w' (output_name outputfile read_direction)
       = Some (String.concat ""
                 (map flush
                    (filter
                       (fun g => negb (group_skipped skip_ids paired g))
                       (groups_seen
                          (map Str.rstrip (Str.readlines text)))))).
Proof.
  intros H Hne.
  destruct (write_filtered_output_run skip_ids outputfile path paired
              read_direction w text H) as (w' & Hrun & Hfiles).
  exists w'. split; [exact Hrun |].
  rewrite Hfiles, String.eqb_refl. apply String.eqb_neq in Hne.
  rewrite Hne. unfold written. now rewrite write_lines_groups.
Qed.

Lemma write_filtered_output_by_groups_witness :
  exists w',
    write_filtered_output [("@r1", true)] "out.fastq" (Some "in.fastq") false
      None
      (World (disk [("in.fastq", "@r1" +++ NL +++ "ACGT" +++ NL)]) [])
    = (Returned (output_name "out.fastq" None), w')
    /\ files w' (output_name "out.fastq" None)
       = Some (String.concat ""
                 (map flush
                    (filter
                       (fun g =>
                          negb (group_skipped [("@r1", true)] false g))
                       (groups_seen
                          (map Str.rstrip
                             (Str.readlines
                                ("@r1" +++ NL +++ "ACGT" +++ NL))))))).
Proof.
  apply (write_filtered_output_by_groups [("@r1", true)] "out.fastq"
           "in.fastq" false None
           (World (disk [("in.fastq", "@r1" +++ NL +++ "ACGT" +++ NL)]) [])
           ("@r1" +++ NL +++ "ACGT" +++ NL)).
  - reflexivity.
  - intros E. vm_compute in E. discriminate E.
Defined.

(** X9.  With an empty dictionary [write_filtered_output] copies a
    well-formed file of one record or more as it is. *)
Theorem write_filtered_output_copies (outputfile path : string)
    (paired : bool) (read_direction : option string) (w : world)
    (rs : list fastq_record) :
  files w path = Some (fastq_text rs) ->
  path <> output_name outputfile read_direction ->
  forallb well_formed rs = true ->
  rs <> [] ->
  exists w',
    write_filtered_output Dict.empty outputfile (Some path) paired
      read_direction w
    = (Returned (output_name outputfile read_direction), w')
    /\ files w' (output_name outputfile read_direction) = files w path.
Proof.
  intros H Hne Hwf Hrs.
  destruct (write_filtered_output_run Dict.empty outputfile path paired
              read_direction w _ H) as (w' & Hrun & Hfiles).
  exists w'. split; [exact Hrun |].
  rewrite Hfiles, String.eqb_refl, H. apply String.eqb_neq in Hne.
  rewrite Hne, written_fastq_text by exact Hwf.
  destruct rs; [easy |]. unfold written_records. now rewrite kept_all.
Qed.

Lemma write_filtered_output_copies_witness :
  exists w',
    write_filtered_output Dict.empty "out.fastq" (Some "in.fastq") true
      (Some "R1")
      (World (disk [("in.fastq", fastq_text [example_read "@r1/1" 4])]) [])
    = (Returned (output_name "out.fastq" (Some "R1")), w')
    /\ files w' (output_name "out.fastq" (Some "R1"))
       = files
           (World
              (disk [("in.fastq", fastq_text [example_read "@r1/1" 4])]) [])
           "in.fastq".
Proof.
  apply (write_filtered_output_copies "out.fastq" "in.fastq" true
           (Some "R1")
           (World (disk [("in.fastq", fastq_text [example_read "@r1/1" 4])])
              [])
           [example_read "@r1/1" 4]).
  - reflexivity.
  - intros E. vm_compute in E. discriminate E.
  - reflexivity.
  - discriminate.
Defined.

(** X10.  [write_filtered_output] opens the file it writes before the file
    it reads: when it fails on the file to read, with [AttributeError] for
    no name and [FileNotFoundError] for a file that does not exist, the
    output file is there already, and it is empty. *)
Theorem write_filtered_output_fails (skip_ids : Dict.dict)
    (outputfile path : string) (paired : bool)
    (read_direction : option string) (w : world) :
  files w path = None ->
  path <> output_name outputfile read_direction ->
  exists w1 w2,
    write_filtered_output skip_ids outputfile None paired read_direction w
    = (Raised AttributeError, w1)
    /\ write_filtered_output skip_ids outputfile (Some path) paired
         read_direction w
       = (Raised (FileNotFoundError path), w2)
    /\ files w1 (output_name outputfile read_direction) = Some ""
    /\ files w2 (output_name outputfile read_direction) = Some "".
Proof.
  intros H Hne. apply String.eqb_neq in Hne.
  unfold write_filtered_output, bind, print, print_all, require_path, ret,
    raise, open_read, store.
  cbn [files stdout]. rewrite Hne, H.
  do 2 eexists. split; [reflexivity |]. split; [reflexivity |].
  cbn [files]. now rewrite String.eqb_refl.
Qed.

Lemma write_filtered_output_fails_witness :
  exists w1 w2,
    write_filtered_output [] "out.fastq" None false None (World (disk []) [])
    = (Raised AttributeError, w1)
    /\ write_filtered_output [] "out.fastq" (Some "in.fastq") false None
         (World (disk []) [])
       = (Raised (FileNotFoundError "in.fastq"), w2)
    /\ files w1 (output_name "out.fastq" None) = Some ""
    /\ files w2 (output_name "out.fastq" None) = Some "".
Proof.
  apply (write_filtered_output_fails [] "out.fastq" "in.fastq" false None
           (World (disk []) [])).
  - reflexivity.
  - intros E. vm_compute in E. discriminate E.
Defined.

(** ** main *)

(** X11.  A run on one input file that is also named as the output file
    loses the reads: once a read is found to skip, the file is opened for
    writing before it is read again, and the run returns 0 and leaves one
    line feed in it. *)
Theorem main_in_place_loses_reads (a : Args.t) (w : world)
    (text : string) :
  Args.accepted a = true ->
  split_files a = false ->
  Args.forwardreads a = Some (Args.outputfile a) ->
  files w (Args.outputfile a) = Some text ->
  Dict.is_empty (skip_of (Args.length a) (Args.pairedend a) text) = false ->
  exists w',
    main a w = (Returned 0%Z, w')
    /\ files w' (Args.outputfile a) = Some NL.
Proof.
  intros Hacc S HF Hw Hskip.
  pose proof (accepted_one_file a Hacc S) as Hr.
  destruct (main_one_file a w _ _ S Hr HF Hw) as (w' & Hmain & Hcase).
  rewrite Hskip in Hcase. exists w'. split; [exact Hmain |].
  now rewrite Hcase, !String.eqb_refl.
Qed.

Lemma main_in_place_loses_reads_witness :
  exists w',
    main (Args.Make true false false (Some "reads.fastq") None "reads.fastq"
            25)
      (World
         (disk [("reads.fastq",
                 fastq_text [example_read "@r1" 10; example_read "@r2" 30])])
         [])
    = (Returned 0%Z, w')
    /\ files w' "reads.fastq" = Some NL.
Proof.
  apply (main_in_place_loses_reads
           (Args.Make true false false (Some "reads.fastq") None
              "reads.fastq" 25)
           (World
              (disk [("reads.fastq",
                      fastq_text
                        [example_read "@r1" 10; example_read "@r2" 30])])
              [])
           (fastq_text [example_read "@r1" 10; example_read "@r2" 30]));
    reflexivity.
Defined.

(** X13.  An interleaved library: for two records of the one file with the
    same identifier, one of them as short as the threshold, [main] returns
    0, the output file holds the records whose identifier is that of no
    short record, in the order of the input, and neither of the two is
    among them. *)
Theorem main_interleaved_drops_pairs (a : Args.t) (w : world) (F : string)
    (rs : list fastq_record) (r1 r2 : fastq_record) :
  Args.accepted a = true ->
  Args.pairedend a = true ->
  Args.interleaved a = true ->
  Args.forwardreads a = Some F ->
  files w F = Some (fastq_text rs) ->
  F <> Args.outputfile a ->
  forallb well_formed rs = true ->
  In r1 rs ->
  In r2 rs ->
  read_id true r1 = read_id true r2 ->
  (sequence_length r1 <= Args.length a
   \/ sequence_length r2 <= Args.length a)%Z ->
  exists (skip_ids : Dict.dict) (w' : world),
    main a w = (Returned 0%Z, w')
    /\ (forall k,
          Dict.contains k skip_ids = true
          <-> exists r,
                In r rs /\ read_id true r = k
                /\ (sequence_length r <= Args.length a)%Z)
    /\ files w' (Args.outputfile a)
       = Some (fastq_text (kept skip_ids true rs))
    /\ ~ In r1 (kept skip_ids true rs)
    /\ ~ In r2 (kept skip_ids true rs).
Proof.
  intros Hacc Hp Hi HF Hw Hne Hwf Hin1 Hin2 Hid Hshort.
  assert (S : split_files a = false)
    by (unfold split_files; now rewrite Hp, Hi).
  pose proof (accepted_one_file a Hacc S) as Hr.
  destruct (main_one_file a w F _ S Hr HF Hw) as (w' & Hmain & Hcase).
  rewrite Hp in Hcase. rewrite skip_of_fastq_text in Hcase by exact Hwf.
  set (skip_ids := skip_records (Args.length a) true rs Dict.empty) in *.
  assert (Hc1 : Dict.contains (read_id true r1) skip_ids = true).
  { apply contains_skip_records_iff. destruct Hshort as [H | H].
    - exists r1. tauto.
    - exists r2. repeat split; [assumption | now symmetry | exact H]. }
  rewrite (contains_not_empty _ _ Hc1) in Hcase.
  exists skip_ids, w'. split; [exact Hmain |].
  split; [intros k; apply contains_skip_records_iff |].
  split; [| split].
  - rewrite Hcase, String.eqb_refl. apply String.eqb_neq in Hne.
    rewrite Hne, written_fastq_text by exact Hwf.
    destruct rs; [easy | reflexivity].
  - rewrite kept_In. intros [_ H]. congruence.
  - rewrite kept_In, <- Hid. intros [_ H]. congruence.
Qed.

Lemma main_interleaved_drops_pairs_witness :
  exists (skip_ids : Dict.dict) (w' : world),
    main (Args.Make false true true (Some "il.fastq") None "out.fastq" 25)
      (World
         (disk [("il.fastq",
                 fastq_text
                   [example_read "@r1/1" 40; example_read "@r1/2" 10])])
         [])
    = (Returned 0%Z, w')
    /\ (forall k,
          Dict.contains k skip_ids = true
          <-> exists r,
                In r [example_read "@r1/1" 40; example_read "@r1/2" 10]
                /\ read_id true r = k /\ (sequence_length r <= 25)%Z)
    /\ files w' "out.fastq"
       = Some (fastq_text
                 (kept skip_ids true
                    [example_read "@r1/1" 40; example_read "@r1/2" 10]))
    /\ ~ In (example_read "@r1/1" 40)
           (kept skip_ids true
              [example_read "@r1/1" 40; example_read "@r1/2" 10])
    /\ ~ In (example_read "@r1/2" 10)
           (kept skip_ids true
              [example_read "@r1/1" 40; example_read "@r1/2" 10]).
Proof.
  apply (main_interleaved_drops_pairs
           (Args.Make false true true (Some "il.fastq") None "out.fastq" 25)
           (World
              (disk [("il.fastq",
                      fastq_text
                        [example_read "@r1/1" 40; example_read "@r1/2" 10])])
              [])
           "il.fastq" [example_read "@r1/1" 40; example_read "@r1/2" 10]
           (example_read "@r1/1" 40) (example_read "@r1/2" 10)).
  - reflexivity.
  - reflexivity.
  - reflexivity.
  - reflexivity.
  - reflexivity.
  - intros E. vm_compute in E. discriminate E.
  - reflexivity.
  - now left.
  - right. now left.
  - reflexivity.
  - right. vm_compute. discriminate.
Defined.

(** ** The names of the two output files *)

(** X14.  Whatever the output name asked for, the forward and the reverse
    output of a library in two files get two different names, and neither
    name is empty. *)
Theorem output_names_differ (outputfile : string) :
  output_name outputfile (Some "R1") <> output_name outputfile (Some "R2")
  /\ output_name outputfile (Some "R1") <> ""
  /\ output_name outputfile (Some "R2") <> "".
Proof.
  destruct (output_name_direction outputfile) as (base & rest & H).
  rewrite !H. repeat split.
  - intros E. apply append_inv_head in E. discriminate E.
  - destruct base; discriminate.
  - destruct base; discriminate.
Qed.

(** ** merge_skip_ids *)

(** X15.  When some key of the second dictionary is in the first with
    another value, [merge_skip_ids] prints the mismatch for such a key and
    exits with status -2; it returns no dictionary and touches no file. *)
Theorem merge_skip_ids_mismatch (base_skip_ids new_skip_ids : Dict.dict)
    (k : string) (b v : bool) (w : world) :
  Dict.get k base_skip_ids = Some b ->
  In (k, v) new_skip_ids ->
  b <> v ->
  exists k' b' v',
    merge_skip_ids base_skip_ids new_skip_ids w
    = (SysExit (-2)%Z,
       World (files w) (stdout w ++ [MismatchInSkipIds k']))
    /\ Dict.get k' base_skip_ids = Some b'
    /\ In (k', v') new_skip_ids
    /\ b' <> v'.
Proof.
  intros Hget Hin Hne. unfold merge_skip_ids.
  generalize (fold_left (fun m kv => Dict.set (fst kv) (snd kv) m)
                base_skip_ids Dict.empty).
  induction new_skip_ids as [| [k0 v0] items IH]; intros merged;
    [destruct Hin |].
  cbn [merge_new].
  destruct (Dict.get k0 base_skip_ids) as [b0 |] eqn:E0.
  - destruct (Bool.eqb b0 v0) eqn:Eb; cbn [negb].
    + apply Bool.eqb_prop in Eb. subst v0.
      destruct Hin as [Heq | Hin'].
      * inversion Heq; subst. congruence.
      * destruct (IH Hin' (Dict.set k0 b0 merged))
          as (k' & b' & v' & H1 & H2 & H3 & H4).
        exists k', b', v'. repeat split; auto. now right.
    + exists k0, b0, v0. repeat split; auto.
      * now left.
      * intros ->. now rewrite Bool.eqb_reflx in Eb.
  - destruct Hin as [Heq | Hin'].
    + inversion Heq; subst. congruence.
    + destruct (IH Hin' (Dict.set k0 v0 merged))
        as (k' & b' & v' & H1 & H2 & H3 & H4).
      exists k', b', v'. repeat split; auto. now right.
Qed.

Lemma merge_skip_ids_mismatch_witness :
  exists k' b' v',
    merge_skip_ids [("@r1", false)] [("@r2", true); ("@r1", true)]
      (World (disk []) [])
    = (SysExit (-2)%Z,
       World (files (World (disk []) []))
         (stdout (World (disk []) []) ++ [MismatchInSkipIds k']))
    /\ Dict.get k' [("@r1", false)] = Some b'
    /\ In (k', v') [("@r2", true); ("@r1", true)]
    /\ b' <> v'.
Proof.
  apply (merge_skip_ids_mismatch [("@r1", false)]
           [("@r2", true); ("@r1", true)] "@r1" false true
           (World (disk []) [])).
  - reflexivity.
  - right. now left.
  - discriminate.
Defined.

Lemma get_update (k : string) (items : Dict.dict) :
  NoDup (Dict.keys items) ->
  forall base,
    Dict.get k (dict_update base items)
    = match Dict.get k items with
      | Some v => Some v
      | None => Dict.get k base
      end.
Proof.
  unfold dict_update, Dict.keys.
  induction items as [| [k0 v0] items IH]; intros Hnd base;
    cbn [fold_left map fst snd Dict.get]; [reflexivity |].
  inversion Hnd as [| ? ? Hnot Hnd']; subst.
  rewrite (IH Hnd'), get_set.
  destruct (String.eqb k k0) eqn:E; [| reflexivity].
  apply String.eqb_eq in E. subst k0.
  destruct (Dict.get k items) as [v |] eqn:G; [| reflexivity].
  exfalso. apply Hnot. apply contains_keys.
  unfold Dict.contains. now rewrite G.
Qed.

Lemma in_get (k : string) (v : bool) (d : Dict.dict) :
  NoDup (Dict.keys d) -> In (k, v) d -> Dict.get k d = Some v.
Proof.
  unfold Dict.keys.
  induction d as [| [k0 v0] d IH]; intros Hnd Hin; [destruct Hin |].
  cbn [map fst] in Hnd. inversion Hnd as [| ? ? Hnot Hnd']; subst.
  cbn [Dict.get]. destruct Hin as [Heq | Hin].
  - inversion Heq; subst. now rewrite String.eqb_refl.
  - destruct (String.eqb k k0) eqn:E; [| now apply IH].
    apply String.eqb_eq in E. subst k0. exfalso. apply Hnot.
    change k with (fst (k, v)). now apply in_map.
Qed.

Lemma merge_new_agree (base : Dict.dict) :
  forall items merged,
    (forall k v b, In (k, v) items -> Dict.get k base = Some b -> b = v) ->
    merge_new base items merged = ret (dict_update merged items).
Proof.
  induction items as [| [k v] items IH]; intros merged H; [reflexivity |].
  cbn [merge_new].
  assert (Hrest : forall k' v' b', In (k', v') items ->
                    Dict.get k' base = Some b' -> b' = v')
    by (intros k' v' b' Hin; apply H; now right).
  destruct (Dict.get k base) as [b |] eqn:E.
  - rewrite (H k v b (or_introl eq_refl) E), Bool.eqb_reflx. cbn [negb].
    now apply IH.
  - now apply IH.
Qed.

(** X16.  For two dictionaries that give no key two different values,
    [merge_skip_ids] returns, printing nothing, a dictionary in which a key
    of the second has the value the second gives it and any other key has
    what the first gives it, if anything. *)
Theorem merge_skip_ids_lookup (base_skip_ids new_skip_ids : Dict.dict)
    (w : world) :
  NoDup (Dict.keys base_skip_ids) ->
  NoDup (Dict.keys new_skip_ids) ->
  (forall k b v,
     Dict.get k base_skip_ids = Some b ->
     Dict.get k new_skip_ids = Some v -> b = v) ->
  exists merged,
    merge_skip_ids base_skip_ids new_skip_ids w = (Returned merged, w)
    /\ forall k,
         Dict.get k merged
         = match Dict.get k new_skip_ids with
           | Some v => Some v
           | None => Dict.get k base_skip_ids
           end.
Proof.
  intros Hb Hn Hagree. unfold merge_skip_ids.
  rewrite merge_new_agree.
  - eexists. split; [reflexivity |]. intros k.
    fold (dict_update Dict.empty base_skip_ids).
    rewrite (get_update k new_skip_ids Hn).
    rewrite (get_update k base_skip_ids Hb).
    destruct (Dict.get k new_skip_ids); [reflexivity |].
    destruct (Dict.get k base_skip_ids); reflexivity.
  - intros k v b Hin Hget. apply (Hagree k b v Hget).
    now apply in_get.
Qed.

Lemma merge_skip_ids_lookup_witness :
  exists merged,
    merge_skip_ids [("@r1", true)] [("@r2", true); ("@r1", true)]
      (World (disk []) [])
    = (Returned merged, World (disk []) [])
    /\ forall k,
         Dict.get k merged
         = match Dict.get k [("@r2", true); ("@r1", true)] with
           | Some v => Some v
           | None => Dict.get k [("@r1", true)]
           end.
Proof.
  apply (merge_skip_ids_lookup [("@r1", true)]
           [("@r2", true); ("@r1", true)] (World (disk []) [])).
  - repeat constructor. intros [].
  - repeat constructor; cbn; intuition discriminate.
  - intros k b v H1 H2. cbn in H1, H2.
    destruct (String.eqb k "@r1"); [| discriminate].
    destruct (String.eqb k "@r2"); congruence.
Defined.

(** ** getargs *)



(** X18.  [getargs] never raises and touches no file: either it returns
    and has printed nothing, or it exits with status -1 and the last thing
    it has printed is the help. *)
Theorem getargs_returns_or_exits (argc : nat) (args : Namespace.t)
    (w : world) :
  (exists a, getargs argc args w = (Returned a, w))
  \/ (exists ms,
        getargs argc args w
        = (SysExit (-1)%Z, World (files w) (stdout w ++ ms ++ [Help]))).
Proof.
  unfold getargs, bind, print, sys_exit, ret.
  destruct (Nat.ltb argc 2);
    [right; exists []; reflexivity |].
  repeat match goal with
         | |- context [if ?b then _ else _] =>
             destruct b;
             [right; eexists [_]; cbn [files stdout]; f_equal; f_equal;
              rewrite <- app_assoc; reflexivity |]
         end.
  left. eexists. reflexivity.
Qed.

(** X19.  [getargs] does not ask for a forward file.  With none given,
    [main] prints that it reads the file [None] and raises
    [AttributeError]; no file is touched. *)
Theorem main_without_forward_reads (argc : nat) (args : Namespace.t)
    (w w' : world) (a : Args.t) :
  Namespace.forwardreads args = None ->
  getargs argc args w = (Returned a, w') ->
  main a w'
  = (Raised AttributeError,
     World (files w) (stdout w ++ [ReadingInputFile None])).
Proof.
  intros Hf Hget.
  assert (Args.forwardreads a = None /\ w' = w) as [Ha ->].
  { revert Hget. unfold getargs, bind, print, sys_exit, ret.
    repeat match goal with
           | |- context [if ?b then _ else _] =>
               destruct b; [discriminate |]
           end.
    intros H. inversion H; subst. cbn. now split. }
  unfold main. rewrite Ha. reflexivity.
Qed.

Lemma main_without_forward_reads_witness :
  main (Args.Make true false false None None "out.fastq" 25)
    (World (disk []) [])
  = (Raised AttributeError,
     World (files (World (disk []) []))
       (stdout (World (disk []) []) ++ [ReadingInputFile None])).
Proof.
  apply (main_without_forward_reads 4
           (Namespace.Make true false false None None (Some "out.fastq") 25)
           (World (disk []) []) (World (disk []) [])
           (Args.Make true false false None None "out.fastq" 25));
    reflexivity.
Defined.

(** ** The output name of an ordinary base name *)

Lemma literal_here_before_dot (lit : string) :
  Str.contains "."%char lit = false ->
  forall x y,
    Re.literal_here lit (x +++ String "." y) = Re.literal_here lit x.
Proof.
  induction lit as [| p lit IH]; intros Hlit x y; [now destruct x |].
  cbn [Str.contains] in Hlit. apply orb_false_iff in Hlit as [Hp Hlit].
  destruct x as [| c x]; cbn [String.append Re.literal_here].
  - change (Str.lower_char ".") with "."%char. now rewrite Hp.
  - now rewrite IH.
Qed.

Lemma sub_dot_literal_skip (lit l rest : string) :
  Re.sub_dot_literal_from (String.length l) lit (l +++ rest)
  = Re.sub_dot_literal_from 0 lit rest.
Proof.
  induction l as [| c l IH]; [reflexivity | exact IH].
Qed.

Lemma sub_dot_literal_clean (lit base : string) :
  Str.contains "."%char lit = false ->
  Re.literal_here lit lit = true ->
  free_of lit base = true ->
  Re.sub_dot_literal lit (base +++ String "." lit) = base.
Proof.
  intros Hlit Hself Hfree. unfold Re.sub_dot_literal.
  induction base as [| c base IH]; cbn [String.append Re.sub_dot_literal_from].
  - change (negb (Ascii.eqb "." Str.LF)) with true. cbn [andb].
    rewrite Hself.
    rewrite <- (append_empty_r lit) at 3.
    rewrite sub_dot_literal_skip. reflexivity.
  - cbn [free_of] in Hfree. apply andb_prop in Hfree as [H1 H2].
    apply negb_true_iff in H1.
    rewrite literal_here_before_dot, H1, andb_false_r by exact Hlit.
    now rewrite IH.
Qed.

Lemma free_of_before_dot (lit s y : string) :
  Str.contains "."%char lit = false ->
  free_of lit (s +++ String "." y)
  = free_of lit s && free_of lit (String "." y).
Proof.
  intros Hlit.
  induction s as [| c s IH]; cbn [String.append]; [reflexivity |].
  cbn [free_of]. fold (free_of lit (String "." y)).
  rewrite literal_here_before_dot, IH by exact Hlit.
  cbn [free_of]. now rewrite andb_assoc.
Qed.

Lemma lower_app (s t : string) :
  Str.lower (s +++ t) = Str.lower s +++ Str.lower t.
Proof.
  induction s as [| c s IH]; cbn [String.append Str.lower]; [reflexivity |].
  now rewrite IH.
Qed.

Lemma length_app (s t : string) :
  String.length (s +++ t) = String.length s + String.length t.
Proof.
  induction s as [| c s IH]; cbn [String.append String.length];
    [reflexivity | now rewrite IH].
Qed.

Lemma endswith_app (s t suf : string) :
  String.length suf <= String.length t ->
  Str.endswith (s +++ t) suf = Str.endswith t suf.
Proof.
  intros Hlen.
  induction s as [| c s IH]; cbn [String.append]; [reflexivity |].
  cbn [Str.endswith]. fold (Str.endswith (s +++ t) suf).
  rewrite IH.
  destruct (String.eqb_spec (String c (s +++ t)) suf) as [E | _];
    [| reflexivity].
  exfalso. rewrite <- E in Hlen. cbn [String.length] in Hlen.
  rewrite length_app in Hlen. lia.
Qed.

(** X21.  For a base name in which no character is followed by [gz], [fq]
    or [fastq] (case ignored), the output name of a mate is the base name,
    a full stop, the direction, and the extension asked for: [.fastq] or
    [.fq], with [.gz] behind it where it was asked for. *)
Theorem output_name_plain (base direction : string) :
  free_of "gz" base = true ->
  free_of "fq" base = true ->
  free_of "fastq" base = true ->
  output_name (base +++ ".fastq") (Some direction)
  = base +++ "." +++ direction +++ ".fastq"
  /\ output_name (base +++ ".fq") (Some direction)
     = base +++ "." +++ direction +++ ".fq"
  /\ output_name (base +++ ".fastq.gz") (Some direction)
     = base +++ "." +++ direction +++ ".fastq.gz"
  /\ output_name (base +++ ".fq.gz") (Some direction)
     = base +++ "." +++ direction +++ ".fq.gz".
Proof.
  intros Hgz Hfq Hfastq.
  assert (G1 : Re.sub_dot_literal "gz" (base +++ ".fastq.gz")
               = base +++ ".fastq").
  { change (base +++ ".fastq.gz") with (base +++ ".fastq" +++ ".gz").
    rewrite <- append_assoc.
    apply sub_dot_literal_clean; [reflexivity | reflexivity |].
    rewrite free_of_before_dot, Hgz by reflexivity. reflexivity. }
  assert (G2 : Re.sub_dot_literal "gz" (base +++ ".fq.gz") = base +++ ".fq").
  { change (base +++ ".fq.gz") with (base +++ ".fq" +++ ".gz").
    rewrite <- append_assoc.
    apply sub_dot_literal_clean; [reflexivity | reflexivity |].
    rewrite free_of_before_dot, Hgz by reflexivity. reflexivity. }
  assert (E1 : Re.sub_dot_literal "fastq" (base +++ ".fastq") = base)
    by (apply sub_dot_literal_clean; [reflexivity | reflexivity | exact Hfastq]).
  assert (E2 : Re.sub_dot_literal "fq" (base +++ ".fq") = base)
    by (apply sub_dot_literal_clean; [reflexivity | reflexivity | exact Hfq]).
  assert (L : forall t suf,
             String.length suf <= String.length t ->
             Str.endswith (Str.lower (base +++ t)) suf
             = Str.endswith (Str.lower t) suf).
  { intros t suf H. rewrite lower_app. apply endswith_app.
    clear -H. revert H. generalize (String.length suf).
    induction t as [| c t IH]; intros n H; cbn [Str.lower String.length] in *;
      [exact H |].
    destruct n; [lia |]. apply le_n_S. apply IH. lia. }
  unfold output_name. cbv zeta. repeat split.
  - rewrite (L ".fastq" ".gz") by (cbn; lia).
    change (Str.endswith (Str.lower ".fastq") ".gz") with false.
    cbv beta iota zeta. rewrite (L ".fastq" ".fq") by (cbn; lia).
    change (Str.endswith (Str.lower ".fastq") ".fq") with false.
    cbv beta iota zeta. now rewrite E1.
  - rewrite (L ".fq" ".gz") by (cbn; lia).
    change (Str.endswith (Str.lower ".fq") ".gz") with false.
    cbv beta iota zeta. rewrite (L ".fq" ".fq") by (cbn; lia).
    change (Str.endswith (Str.lower ".fq") ".fq") with true.
    cbv beta iota zeta. now rewrite E2.
  - rewrite (L ".fastq.gz" ".gz") by (cbn; lia).
    change (Str.endswith (Str.lower ".fastq.gz") ".gz") with true.
    cbv beta iota zeta. rewrite G1, (L ".fastq" ".fq") by (cbn; lia).
    change (Str.endswith (Str.lower ".fastq") ".fq") with false.
    cbv beta iota zeta. rewrite E1.
    rewrite (append_assoc base), (append_assoc "."),
      (append_assoc direction), (append_assoc ".").
    reflexivity.
  - rewrite (L ".fq.gz" ".gz") by (cbn; lia).
    change (Str.endswith (Str.lower ".fq.gz") ".gz") with true.
    cbv beta iota zeta. rewrite G2, (L ".fq" ".fq") by (cbn; lia).
    change (Str.endswith (Str.lower ".fq") ".fq") with true.
    cbv beta iota zeta. rewrite E2.
    rewrite (append_assoc base), (append_assoc "."),
      (append_assoc direction), (append_assoc ".").
    reflexivity.
Qed.

Lemma output_name_plain_witness :
  output_name ("run1/sample" +++ ".fastq") (Some "R1")
  = "run1/sample" +++ "." +++ "R1" +++ ".fastq"
  /\ output_name ("run1/sample" +++ ".fq") (Some "R1")
     = "run1/sample" +++ "." +++ "R1" +++ ".fq"
  /\ output_name ("run1/sample" +++ ".fastq.gz") (Some "R1")
     = "run1/sample" +++ "." +++ "R1" +++ ".fastq.gz"
  /\ output_name ("run1/sample" +++ ".fq.gz") (Some "R1")
     = "run1/sample" +++ "." +++ "R1" +++ ".fq.gz".
Proof.
  apply (output_name_plain "run1/sample" "R1"); reflexivity.
Defined.

(** ** More on the two passes *)

(** X22.  No line is shorter than nothing: with a threshold below zero
    [get_skip_ids] returns the empty dictionary, whatever the file
    holds. *)
Theorem get_skip_ids_negative_threshold (path : string) (skip_len : Z)
    (paired : bool) (w : world) (text : string) :
  files w path = Some text ->
  (skip_len < 0)%Z ->
  exists w',
    get_skip_ids (Some path) skip_len paired w = (Returned Dict.empty, w').
Proof.
  intros H Hneg.
  destruct (get_skip_ids_run path skip_len paired w text H) as [ms Hrun].
  eexists. rewrite Hrun. f_equal. f_equal.
  unfold skip_of. rewrite scan_lines_groups.
  generalize (groups4 (map Str.rstrip (Str.readlines text))).
  intros gs. induction gs as [| g gs IH]; [reflexivity |].
  cbn [fold_left]. unfold scan_group at 2.
  destruct g as [| h [| s g]]; try exact IH.
  assert (E : (Z.of_nat (String.length s) <=? skip_len)%Z = false)
    by (apply Z.leb_gt; lia).
  now rewrite E, andb_false_r.
Qed.

Lemma get_skip_ids_negative_threshold_witness :
  exists w',
    get_skip_ids (Some "f.fastq") (-1) false
      (World (disk [("f.fastq", fastq_text [example_read "@r1" 0])]) [])
    = (Returned Dict.empty, w').
Proof.
  apply (get_skip_ids_negative_threshold "f.fastq" (-1) false
           (World (disk [("f.fastq", fastq_text [example_read "@r1" 0])]) [])
           (fastq_text [example_read "@r1" 0])).
  - reflexivity.
  - lia.
Defined.

(** X23.  A library in two files of which the reverse file does not
    exist: [main] raises [FileNotFoundError] for it before anything is
    written; every file is as it was. *)
Theorem main_missing_reverse_file (a : Args.t) (w : world) (F R : string)
    (text : string) :
  split_files a = true ->
  Args.forwardreads a = Some F ->
  Args.reversereads a = Some R ->
  files w F = Some text ->
  files w R = None ->
  exists ms,
    main a w
    = (Raised (FileNotFoundError R), World (files w) (stdout w ++ ms)).
Proof.
  intros S HF HR HwF HwR. unfold split_files in S.
  destruct (get_skip_ids_run F (Args.length a) (Args.pairedend a) w text HwF)
    as [ms1 Hget1].
  unfold main. rewrite S, HF, HR. unfold bind at 1. rewrite Hget1.
  unfold bind at 1. unfold bind at 1.
  unfold get_skip_ids, bind, print, require_path, ret, open_read.
  cbn [files stdout]. rewrite HwR.
  exists (ms1 ++ [ReadingInputFile (Some R)]).
  now rewrite app_assoc.
Qed.

Lemma main_missing_reverse_file_witness :
  exists ms,
    main (Args.Make false true false (Some "f.fastq") (Some "r.fastq")
            "out.fastq" 25)
      (World (disk [("f.fastq", fastq_text [example_read "@r1/1" 10])]) [])
    = (Raised (FileNotFoundError "r.fastq"),
       World
         (files
            (World
               (disk [("f.fastq", fastq_text [example_read "@r1/1" 10])])
               []))
         (stdout
            (World
               (disk [("f.fastq", fastq_text [example_read "@r1/1" 10])])
               [])
          ++ ms)).
Proof.
  apply (main_missing_reverse_file
           (Args.Make false true false (Some "f.fastq") (Some "r.fastq")
              "out.fastq" 25)
           (World (disk [("f.fastq", fastq_text [example_read "@r1/1" 10])])
              [])
           "f.fastq" "r.fastq" (fastq_text [example_read "@r1/1" 10]));
    reflexivity.
Defined.

Lemma kept_kept (skip_ids : Dict.dict) (paired : bool)
    (rs : list fastq_record) :
  kept skip_ids paired (kept skip_ids paired rs) = kept skip_ids paired rs.
Proof.
  unfold kept. induction rs as [| r rs IH]; [reflexivity |].
  cbn [filter].
  destruct (negb (Dict.contains (read_id paired r) skip_ids)) eqn:E;
    [| exact IH].
  cbn [filter]. now rewrite E, IH.
Qed.

(** X24.  Filtering twice is filtering once: [write_filtered_output] run
    with the same dictionary on a file it has written, of one record or
    more, writes that file again as it is. *)
Theorem write_filtered_output_twice (skip_ids : Dict.dict)
    (outputfile1 outputfile2 path : string) (paired : bool)
    (direction1 direction2 : option string) (w : world)
    (rs : list fastq_record) :
  files w path = Some (fastq_text rs) ->
  path <> output_name outputfile1 direction1 ->
  output_name outputfile1 direction1 <> output_name outputfile2 direction2 ->
  forallb well_formed rs = true ->
  kept skip_ids paired rs <> [] ->
  exists w1 w2,
    write_filtered_output skip_ids outputfile1 (Some path) paired
      direction1 w
    = (Returned (output_name outputfile1 direction1), w1)
    /\ write_filtered_output skip_ids outputfile2
         (Some (output_name outputfile1 direction1)) paired direction2 w1
       = (Returned (output_name outputfile2 direction2), w2)
    /\ files w2 (output_name outputfile2 direction2)
       = files w1 (output_name outputfile1 direction1).
Proof.
  intros H Hne1 Hne2 Hwf Hkept.
  destruct (write_filtered_output_run skip_ids outputfile1 path paired
              direction1 w _ H) as (w1 & Hrun1 & Hfiles1).
  assert (H1 : files w1 (output_name outputfile1 direction1)
               = Some (fastq_text (kept skip_ids paired rs))).
  { rewrite Hfiles1, String.eqb_refl. apply String.eqb_neq in Hne1.
    rewrite Hne1, written_fastq_text by exact Hwf.
    destruct rs; [easy | reflexivity]. }
  destruct (write_filtered_output_run skip_ids outputfile2 _ paired
              direction2 w1 _ H1) as (w2 & Hrun2 & Hfiles2).
  exists w1, w2. split; [exact Hrun1 |]. split; [exact Hrun2 |].
  rewrite Hfiles2, String.eqb_refl, H1. apply String.eqb_neq in Hne2.
  rewrite Hne2, written_fastq_text by now apply kept_well_formed.
  unfold written_records. rewrite kept_kept.
  destruct (kept skip_ids paired rs); [easy | reflexivity].
Qed.

Lemma write_filtered_output_twice_witness :
  exists w1 w2,
    write_filtered_output [("@r1", true)] "once.fastq" (Some "in.fastq")
      false None
      (World
         (disk [("in.fastq",
                 fastq_text [example_read "@r1" 3; example_read "@r2" 4])])
         [])
    = (Returned (output_name "once.fastq" None), w1)
    /\ write_filtered_output [("@r1", true)] "twice.fastq"
         (Some (output_name "once.fastq" None)) false None w1
       = (Returned (output_name "twice.fastq" None), w2)
    /\ files w2 (output_name "twice.fastq" None)
       = files w1 (output_name "once.fastq" None).
Proof.
  apply (write_filtered_output_twice [("@r1", true)] "once.fastq"
           "twice.fastq" "in.fastq" false None None
           (World
              (disk [("in.fastq",
                      fastq_text
                        [example_read "@r1" 3; example_read "@r2" 4])])
              [])
           [example_read "@r1" 3; example_read "@r2" 4]).
  - reflexivity.
  - intros E. vm_compute in E. discriminate E.
  - intros E. vm_compute in E. discriminate E.
  - reflexivity.
  - intros E. vm_compute in E. discriminate E.
Defined.
